(** * Sua Vida em Semanas: the week counter, the life grid and the tables
      derived from it

    A shallow embedding of [vida_semanas_streamlit.py].  Python integers are
    [Z]; lists are [list]; the dictionaries the program builds with a fixed
    set of keys are records whose fields carry the keys' names; string
    values stay strings.  Calls that can raise return in the error monad
    [Py].  The arithmetic of the [datetime] module the program calls
    ([timedelta] normalisation, ordinals, comparison, [strftime]) follows
    the reference implementation of the standard library. *)

From Stdlib Require Import String Ascii.
From Stdlib Require Import ZArith QArith List Bool Lia DecimalString.
Import ListNotations.
Local Open Scope Z_scope.

Definition vivida : string := "vivida"%string.
Definition futura : string := "futura"%string.

(** ** Python built-ins used by the program *)

(** [range(n)]: the integers [0 .. n-1], empty when [n <= 0]. *)
Definition range (n : Z) : list Z := map Z.of_nat (seq 0 (Z.to_nat n)).

(** [range(start, stop, step)] for a positive [step]; the length is the one
    the interpreter computes, [(stop - start - 1) // step + 1] when
    [start < stop] and 0 otherwise. *)
Definition range_step (start stop step : Z) : list Z :=
  let len := if start <? stop then (stop - start - 1) / step + 1 else 0 in
  map (fun k => start + step * Z.of_nat k) (seq 0 (Z.to_nat len)).

(** A [for x in xs: acc.append(f x)] loop, element by element. *)
Definition for_append {A B : Type} (xs : list A) (f : A -> B) : list B :=
  fold_left (fun acc x => acc ++ [f x]) xs [].

(** ** The life grid (criar_grid_vida) *)

(** One cell of the grid: the dictionary
    [{'ano', 'semana', 'semana_absoluta', 'status'}]. *)
Record Cell : Type := mkCell {
  ano : Z;
  semana : Z;
  semana_absoluta : Z;
  status : string
}.

Definition semanas_por_linha : Z := 52.

Definition criar_linha (semanas_vividas ano : Z) : list Cell :=
  for_append (range semanas_por_linha) (fun semana =>
    let semana_absoluta := ano * semanas_por_linha + semana in
    let status :=
      if semana_absoluta <? semanas_vividas then vivida else futura in
    mkCell ano semana semana_absoluta status).

Definition criar_grid_vida (semanas_vividas expectativa_vida : Z)
  : list (list Cell) :=
  let linhas := expectativa_vida in
  for_append (range linhas) (fun ano => criar_linha semanas_vividas ano).

(** Cells of a grid, row after row. *)
Definition cells (grid : list (list Cell)) : list Cell := concat grid.

Definition is_status (s : string) (c : Cell) : bool := String.eqb (status c) s.

Definition count_status (s : string) (grid : list (list Cell)) : Z :=
  Z.of_nat (length (filter (is_status s) (cells grid))).


(** The cell the two loops build at row [a], column [s], in closed form. *)
Definition cell_at (semanas_vividas a s : Z) : Cell :=
  mkCell a s (a * 52 + s)
         (if a * 52 + s <? semanas_vividas then vivida else futura).

(** ** Exceptions *)

Inductive exn : Type := OverflowError | ValueError | ZeroDivisionError.

(** A computation that returns an [A] or raises. *)
Definition Py (A : Type) : Type := (exn + A)%type.

Definition ret {A : Type} (a : A) : Py A := inr a.
Definition raise {A : Type} (e : exn) : Py A := inl e.
Definition bind {A B : Type} (m : Py A) (f : A -> Py B) : Py B :=
  match m with
  | inl e => inl e
  | inr a => f a
  end.

Notation "x <- m ;; k" := (bind m (fun x => k))
  (at level 61, m at next level, right associativity).

(** A [for x in xs: acc.append(f x)] loop whose body can raise. *)
Definition for_append_py {A B : Type} (xs : list A) (f : A -> Py B) (acc : list B)
  : Py (list B) :=
  fold_left (fun macc x => acc' <- macc ;; y <- f x ;; ret (acc' ++ [y]))
            xs (ret acc).

(** ** The datetime module: calendar arithmetic *)

Definition MINYEAR : Z := 1.
Definition MAXYEAR : Z := 9999.
Definition _MAXORDINAL : Z := 3652059.

(** List indexing at the indices the module uses (months 1 to 12). *)
Definition item (l : list Z) (i : Z) : Z := nth (Z.to_nat i) l 0.

Definition _DAYS_IN_MONTH : list Z :=
  [-1; 31; 28; 31; 30; 31; 30; 31; 31; 30; 31; 30; 31].

(** Built by the module's start-up loop over [_DAYS_IN_MONTH[1:]]. *)
Definition _DAYS_BEFORE_MONTH : list Z :=
  fst (fold_left (fun st dim => (fst st ++ [snd st], snd st + dim))
                 (tl _DAYS_IN_MONTH) ([-1], 0)).

Definition _is_leap (year : Z) : bool :=
  (year mod 4 =? 0) && (negb (year mod 100 =? 0) || (year mod 400 =? 0)).

Definition _days_before_year (year : Z) : Z :=
  let y := year - 1 in
  y * 365 + y / 4 - y / 100 + y / 400.

Definition _days_in_month (year month : Z) : Z :=
  if (month =? 2) && _is_leap year then 29 else item _DAYS_IN_MONTH month.

Definition b2z (b : bool) : Z := if b then 1 else 0.

Definition _days_before_month (year month : Z) : Z :=
  item _DAYS_BEFORE_MONTH month + b2z ((2 <? month) && _is_leap year).

Definition _ymd2ord (year month day : Z) : Z :=
  _days_before_year year + _days_before_month year month + day.

Definition _DI400Y : Z := _days_before_year 401.
Definition _DI100Y : Z := _days_before_year 101.
Definition _DI4Y : Z := _days_before_year 5.

(** Day of the year (0-based) to month and day, as the tail of [_ord2ymd]. *)
Definition _month_day (leapyear : bool) (n : Z) : Z * Z :=
  let month := Z.shiftr (n + 50) 5 in
  let preceding := item _DAYS_BEFORE_MONTH month + b2z ((2 <? month) && leapyear) in
  let '(month, preceding) :=
    if n <? preceding
    then (month - 1,
          preceding - (item _DAYS_IN_MONTH (month - 1)
                       + b2z ((month - 1 =? 2) && leapyear)))
    else (month, preceding) in
  (month, n - preceding + 1).

Definition _ord2ymd (n : Z) : Z * Z * Z :=
  let n := n - 1 in
  let n400 := n / _DI400Y in
  let n := n mod _DI400Y in
  let year := n400 * 400 + 1 in
  let n100 := n / _DI100Y in
  let n := n mod _DI100Y in
  let n4 := n / _DI4Y in
  let n := n mod _DI4Y in
  let n1 := n / 365 in
  let n := n mod 365 in
  let year := year + n100 * 100 + n4 * 4 + n1 in
  if (n1 =? 4) || (n100 =? 4) then (year - 1, 12, 31)
  else
    let leapyear := (n1 =? 3) && (negb (n4 =? 24) || (n100 =? 3)) in
    let '(month, day) := _month_day leapyear n in
    (year, month, day).

Definition _check_date_fields (year month day : Z) : bool :=
  (MINYEAR <=? year) && (year <=? MAXYEAR) &&
  (1 <=? month) && (month <=? 12) &&
  (1 <=? day) && (day <=? _days_in_month year month).

Definition _check_time_fields (hour minute second microsecond : Z) : bool :=
  (0 <=? hour) && (hour <=? 23) &&
  (0 <=? minute) && (minute <=? 59) &&
  (0 <=? second) && (second <=? 59) &&
  (0 <=? microsecond) && (microsecond <=? 999999).

(** ** The datetime module: date, time, timedelta, datetime *)

Record date : Type := mk_date {
  date_year : Z;
  date_month : Z;
  date_day : Z
}.

Record time : Type := mk_time {
  time_hour : Z;
  time_minute : Z;
  time_second : Z;
  time_microsecond : Z
}.

Record timedelta : Type := mk_timedelta {
  days : Z;
  seconds : Z;
  microseconds : Z
}.

Record datetime : Type := mk_datetime {
  year : Z;
  month : Z;
  day : Z;
  hour : Z;
  minute : Z;
  second : Z;
  microsecond : Z
}.

Definition date_new (year month day : Z) : Py date :=
  if _check_date_fields year month day then ret (mk_date year month day)
  else raise ValueError.

Definition time_new (hour minute second microsecond : Z) : Py time :=
  if _check_time_fields hour minute second microsecond
  then ret (mk_time hour minute second microsecond)
  else raise ValueError.

Definition datetime_new (year month day hour minute second microsecond : Z)
  : Py datetime :=
  if _check_date_fields year month day
     && _check_time_fields hour minute second microsecond
  then ret (mk_datetime year month day hour minute second microsecond)
  else raise ValueError.

(** The fields of a datetime that its constructor accepted. *)
Definition valid_datetime (t : datetime) : bool :=
  _check_date_fields (year t) (month t) (day t)
  && _check_time_fields (hour t) (minute t) (second t) (microsecond t).

Definition date_fromordinal (n : Z) : Py date :=
  let '(y, m, d) := _ord2ymd n in date_new y m d.

Definition datetime_combine (d : date) (t : time) : datetime :=
  mk_datetime (date_year d) (date_month d) (date_day d)
              (time_hour t) (time_minute t) (time_second t)
              (time_microsecond t).

(** [datetime.min.time()] *)
Definition time_min : time := mk_time 0 0 0 0.

(** [timedelta(days, seconds, microseconds, milliseconds, minutes, hours,
    weeks)] on integer arguments: everything is carried into days, seconds
    in [0, 86400) and microseconds in [0, 1000000). *)
Definition timedelta_new
  (days seconds microseconds milliseconds minutes hours weeks : Z)
  : Py timedelta :=
  let s := 0 in
  let days := days + weeks * 7 in
  let seconds := seconds + minutes * 60 + hours * 3600 in
  let microseconds := microseconds + milliseconds * 1000 in
  let d := days in
  let days := seconds / (24 * 3600) in
  let seconds := seconds mod (24 * 3600) in
  let d := d + days in
  let s := s + seconds in
  let seconds := microseconds / 1000000 in
  let microseconds := microseconds mod 1000000 in
  let days := seconds / (24 * 3600) in
  let seconds := seconds mod (24 * 3600) in
  let d := d + days in
  let s := s + seconds in
  let seconds := microseconds / 1000000 in
  let us := microseconds mod 1000000 in
  let s := s + seconds in
  let days := s / (24 * 3600) in
  let s := s mod (24 * 3600) in
  let d := d + days in
  if 999999999 <? Z.abs d then raise OverflowError
  else ret (mk_timedelta d s us).

Definition timedelta_add (a b : timedelta) : Py timedelta :=
  timedelta_new (days a + days b) (seconds a + seconds b)
                (microseconds a + microseconds b) 0 0 0 0.

Definition toordinal (t : datetime) : Z := _ymd2ord (year t) (month t) (day t).

(** [self - other] for two naive datetimes. *)
Definition datetime_sub (self other : datetime) : Py timedelta :=
  let days1 := toordinal self in
  let days2 := toordinal other in
  let secs1 := second self + minute self * 60 + hour self * 3600 in
  let secs2 := second other + minute other * 60 + hour other * 3600 in
  timedelta_new (days1 - days2) (secs1 - secs2)
                (microsecond self - microsecond other) 0 0 0 0.

(** [self + other] for a datetime and a timedelta. *)
Definition datetime_add (self : datetime) (other : timedelta) : Py datetime :=
  delta <- timedelta_new (toordinal self) (second self) (microsecond self)
                         0 (minute self) (hour self) 0 ;;
  delta <- timedelta_add delta other ;;
  let hour := seconds delta / 3600 in
  let rem := seconds delta mod 3600 in
  let minute := rem / 60 in
  let second := rem mod 60 in
  if (0 <? days delta) && (days delta <=? _MAXORDINAL) then
    d <- date_fromordinal (days delta) ;;
    t <- time_new hour minute second (microseconds delta) ;;
    ret (datetime_combine d t)
  else raise OverflowError.

(** Comparison of two tuples of integers, as [_cmp] on the field tuples. *)
Fixpoint _cmp (x y : list Z) : comparison :=
  match x, y with
  | [], [] => Eq
  | [], _ :: _ => Lt
  | _ :: _, [] => Gt
  | a :: x', b :: y' =>
      match a ?= b with
      | Eq => _cmp x' y'
      | c => c
      end
  end.

Definition datetime_fields (t : datetime) : list Z :=
  [year t; month t; day t; hour t; minute t; second t; microsecond t].

Definition datetime_cmp (a b : datetime) : comparison :=
  _cmp (datetime_fields a) (datetime_fields b).

(** [a <= b] and [a < b] on naive datetimes. *)
Definition datetime_le (a b : datetime) : bool :=
  match datetime_cmp a b with Gt => false | _ => true end.

Definition datetime_lt (a b : datetime) : bool :=
  match datetime_cmp a b with Lt => true | _ => false end.

(** Decimal digits for [strftime]. *)
Definition digit (n : Z) : ascii := ascii_of_nat (48 + Z.to_nat (n mod 10)).

Definition fmt2 (n : Z) : string :=
  String (digit (n / 10)) (String (digit n) EmptyString).

Definition fmt4 (n : Z) : string :=
  String (digit (n / 1000)) (String (digit (n / 100)) (fmt2 n)).

(** [t.strftime('%Y-%m-%d')], for the four-digit years 1000 to 9999. *)
Definition strftime_Ymd (t : datetime) : string :=
  (fmt4 (year t) ++ "-" ++ fmt2 (month t) ++ "-" ++ fmt2 (day t))%string.

(** Microseconds from the start of day 0 of the proleptic calendar. *)
Definition us_per_day : Z := 24 * 3600 * 1000000.

Definition to_us (t : datetime) : Z :=
  ((toordinal t * 24 + hour t) * 3600 + minute t * 60 + second t) * 1000000
  + microsecond t.

(** ** The week counter (calcular_semanas_vividas) *)

(** [now] is the reading of the clock that [datetime.now()] returns when
    [data_atual] is left out. *)
Definition calcular_semanas_vividas
  (now : datetime) (data_nascimento : datetime) (data_atual : option datetime)
  : Py Z :=
  let data_atual :=
    match data_atual with
    | None => now
    | Some t => t
    end in
  delta <- datetime_sub data_atual data_nascimento ;;
  let semanas_vividas := days delta / 7 in
  ret semanas_vividas.

(** The elapsed whole days [delta.days] of the same subtraction. *)
Definition delta_days (data_nascimento data_atual : datetime) : Py Z :=
  delta <- datetime_sub data_atual data_nascimento ;;
  ret (days delta).

(** The whole days between two instants, from the specification's words:
    the floor of the elapsed time in days. *)
Definition daysBetween (birthDate referenceDate : datetime) : Z :=
  (to_us referenceDate - to_us birthDate) / us_per_day.

(** ** The statistics of main *)

Definition total_semanas (expectativa_vida : Z) : Z := expectativa_vida * 52.

Definition semanas_restantes (semanas_vividas expectativa_vida : Z) : Z :=
  total_semanas expectativa_vida - semanas_vividas.

(** [int(idade_atual)] with [idade_atual = semanas_vividas / 52]: the float
    quotient is exact enough at every week count a timedelta can give, so
    the truncation is the integer quotient rounded toward zero. *)
Definition int_idade_atual (semanas_vividas : Z) : Z := Z.quot semanas_vividas 52.

(** ** The analysis by decade (anos_dados) *)

(** One row of [anos_dados].  [Periodo] holds the two numbers of the label
    ["{inicio_ano}-{fim_ano-1} anos"]; [Progresso] is the exact ratio that the
    label ["{porcentagem_periodo:.1f}%"] rounds. *)
Record AnoDado : Type := mkAnoDado {
  Periodo : Z * Z;
  Semanas_do_Periodo : Z;
  Semanas_Vividas : Z;
  Progresso : Q
}.

Definition ano_dado (semanas_vividas expectativa_vida i : Z) : AnoDado :=
  let inicio_ano := i in
  let fim_ano := Z.min (i + 10) expectativa_vida in
  let semanas_periodo := (fim_ano - inicio_ano) * 52 in
  let semanas_vividas_periodo :=
    Z.max 0 (Z.min (semanas_vividas - inicio_ano * 52) semanas_periodo) in
  let porcentagem_periodo :=
    if 0 <? semanas_periodo
    then (inject_Z semanas_vividas_periodo / inject_Z semanas_periodo
          * inject_Z 100)%Q
    else 0%Q in
  mkAnoDado (inicio_ano, fim_ano - 1) semanas_periodo
            semanas_vividas_periodo porcentagem_periodo.

Definition anos_dados (semanas_vividas expectativa_vida : Z) : list AnoDado :=
  for_append
    (range_step 0 (Z.min expectativa_vida (int_idade_atual semanas_vividas + 10)) 10)
    (ano_dado semanas_vividas expectativa_vida).

(** A year that some row of the analysis includes. *)
Definition covers (r : AnoDado) (y : Z) : Prop :=
  fst (Periodo r) <= y <= snd (Periodo r).

(** ** The CSV export (dados_csv) *)

Record CsvRow : Type := mkCsvRow {
  Ano : Z;
  Semana_do_Ano : Z;
  Semana_Absoluta : Z;
  Status : string;
  Data_Aproximada : string
}.

(** [timedelta(weeks=k)] *)
Definition timedelta_weeks (k : Z) : Py timedelta := timedelta_new 0 0 0 0 0 0 k.

Definition csv_row (data_nascimento : datetime) (semana_data : Cell) : Py CsvRow :=
  td <- timedelta_weeks (semana_absoluta semana_data) ;;
  t <- datetime_add data_nascimento td ;;
  ret (mkCsvRow (ano semana_data + 1) (semana semana_data + 1)
                (semana_absoluta semana_data + 1) (status semana_data)
                (strftime_Ymd t)).

(** The two loops of the export; the index that [enumerate] pairs with each
    row is not used by the body. *)
Definition dados_csv (grid_data : list (list Cell)) (data_nascimento : datetime)
  : Py (list CsvRow) :=
  fold_left (fun macc linha =>
               acc <- macc ;; for_append_py linha (csv_row data_nascimento) acc)
            grid_data (ret []).

(** The date input of the sidebar turned into a datetime at midnight. *)
Definition main_data_nascimento (d : date) : datetime := datetime_combine d time_min.

(** ** The heatmap (criar_visualizacao_plotly) *)

(** [str(n)] for an integer. *)
Definition str (n : Z) : string := NilZero.string_of_int (Z.to_int n).

(** The hover label of one cell, with the status word the branch writes. *)
Definition hover_label (semana_data : Cell) (estado : string) : string :=
  ("Ano " ++ str (ano semana_data + 1) ++ ", Semana "
   ++ str (semana semana_data + 1) ++ "<br>Status: " ++ estado)%string.

(** The inner loop: [z_linha] and [hover_linha] grow together. *)
Definition z_hover_linha (ano_data : list Cell) : list Z * list string :=
  fold_left
    (fun acc semana_data =>
       if String.eqb (status semana_data) vivida
       then (fst acc ++ [1], snd acc ++ [hover_label semana_data "Vivida"])
       else (fst acc ++ [0], snd acc ++ [hover_label semana_data "Futura"]))
    ano_data ([], []).

(** What the two branches of the inner loop append for one cell. *)
Definition z_cell (c : Cell) : Z :=
  if String.eqb (status c) vivida then 1 else 0.

Definition hover_cell (c : Cell) : string :=
  if String.eqb (status c) vivida
  then hover_label c "Vivida" else hover_label c "Futura".

(** The outer loop: [z_data] and [hover_text]. *)
Definition z_hover (grid_data : list (list Cell))
  : list (list Z) * list (list string) :=
  fold_left
    (fun acc ano_data =>
       let linha := z_hover_linha ano_data in
       (fst acc ++ [fst linha], snd acc ++ [snd linha]))
    grid_data ([], []).

Definition z_data (grid_data : list (list Cell)) : list (list Z) :=
  fst (z_hover grid_data).

Definition hover_text (grid_data : list (list Cell)) : list (list string) :=
  snd (z_hover grid_data).

(** The ticks of the year axis: [list(range(0, expectativa_vida, 10))] and
    [[str(i+1) for i in range(0, expectativa_vida, 10)]]. *)
Definition yaxis_tickvals (expectativa_vida : Z) : list Z :=
  range_step 0 expectativa_vida 10.

Definition yaxis_ticktext (expectativa_vida : Z) : list string :=
  map (fun i => str (i + 1)) (range_step 0 expectativa_vida 10).

(** The data of the figure; colours, sizes and the title are layout. *)
Record Figure : Type := mkFigure {
  fig_z : list (list Z);
  fig_text : list (list string);
  fig_yaxis_tickvals : list Z;
  fig_yaxis_ticktext : list string
}.

Definition criar_visualizacao_plotly
  (grid_data : list (list Cell)) (semanas_vividas expectativa_vida : Z)
  : Figure :=
  mkFigure (z_data grid_data) (hover_text grid_data)
           (yaxis_tickvals expectativa_vida) (yaxis_ticktext expectativa_vida).

Definition sum_Z (l : list Z) : Z := fold_right Z.add 0 l.

(** ** The statistics of main, with the division that can raise *)



(** ** The inputs of main *)

(** Comparison of two dates, [_cmp] on their (year, month, day). *)
Definition date_cmp (a b : date) : comparison :=
  _cmp [date_year a; date_month a; date_day a]
       [date_year b; date_month b; date_day b].

(** [t.date()] *)
Definition datetime_date (t : datetime) : date :=
  mk_date (year t) (month t) (day t).

(** The weeks lived as main computes them: the date of the sidebar at
    midnight against the clock. *)
Definition main_semanas_vividas (now : datetime) (d : date) : Py Z :=
  calcular_semanas_vividas now (main_data_nascimento d) None.

(** A result of the week counter that the contract of the specification
    accepts: a week count that is not negative, or a rejected input. *)
Definition nonneg_or_rejected (r : Py Z) : Prop :=
  match r with
  | inr n => 0 <= n
  | inl _ => True
  end.

(** * Properties *)

(** ** Loops as maps *)

Lemma fold_left_append_map {A B : Type} (f : A -> B) (xs : list A) (acc : list B) :
  fold_left (fun acc x => acc ++ [f x]) xs acc = acc ++ map f xs.
Proof.
  revert acc. induction xs as [|x xs IH]; intro acc; simpl.
  - now rewrite app_nil_r.
  - rewrite IH, <- app_assoc. reflexivity.
Qed.

Lemma for_append_map {A B : Type} (xs : list A) (f : A -> B) :
  for_append xs f = map f xs.
Proof. unfold for_append. now rewrite fold_left_append_map. Qed.

Lemma range_length (n : Z) : length (range n) = Z.to_nat n.
Proof. unfold range. now rewrite length_map, length_seq. Qed.

Lemma In_range (n k : Z) : In k (range n) <-> 0 <= k < n.
Proof.
  unfold range. rewrite in_map_iff. split.
  - intros [i [<- Hi]]. apply in_seq in Hi. lia.
  - intros Hk. exists (Z.to_nat k). split; [lia|]. apply in_seq. lia.
Qed.

Lemma nth_error_range (n : Z) (i : nat) :
  (i < Z.to_nat n)%nat -> nth_error (range n) i = Some (Z.of_nat i).
Proof.
  intro Hi. unfold range.
  rewrite nth_error_map, nth_error_seq.
  destruct (Nat.ltb_spec i (Z.to_nat n)); [reflexivity | lia].
Qed.

Lemma criar_linha_map (w a : Z) :
  criar_linha w a = map (cell_at w a) (range 52).
Proof. unfold criar_linha. now rewrite for_append_map. Qed.

Lemma criar_grid_vida_map (w e : Z) :
  criar_grid_vida w e = map (fun a => map (cell_at w a) (range 52)) (range e).
Proof.
  unfold criar_grid_vida. rewrite for_append_map.
  apply map_ext. intro a. apply criar_linha_map.
Qed.

Lemma In_cells (w e : Z) (c : Cell) :
  In c (cells (criar_grid_vida w e)) <->
  exists a s, 0 <= a < e /\ 0 <= s < 52 /\ c = cell_at w a s.
Proof.
  unfold cells. rewrite criar_grid_vida_map, in_concat. split.
  - intros [row [Hrow Hc]]. apply in_map_iff in Hrow as [a [<- Ha]].
    apply in_map_iff in Hc as [s [<- Hs]].
    apply In_range in Ha. apply In_range in Hs. now exists a, s.
  - intros [a [s [Ha [Hs ->]]]].
    exists (map (cell_at w a) (range 52)). split.
    + apply in_map_iff. exists a. split; [reflexivity | now apply In_range].
    + apply in_map. now apply In_range.
Qed.

(** ** The grid *)

Lemma vivida_neq_futura : vivida <> futura.
Proof. discriminate. Qed.

Lemma status_cell_at (w a s : Z) :
  status (cell_at w a s) = vivida <-> a * 52 + s < w.
Proof.
  unfold cell_at; simpl. destruct (Z.ltb_spec (a * 52 + s) w) as [H|H].
  - tauto.
  - split; [intro E; symmetry in E; now apply vivida_neq_futura in E | lia].
Qed.

Lemma status_cell_at_futura (w a s : Z) :
  status (cell_at w a s) = futura <-> ~ a * 52 + s < w.
Proof.
  unfold cell_at; simpl. destruct (Z.ltb_spec (a * 52 + s) w) as [H|H].
  - split; [intro E; now apply vivida_neq_futura in E | lia].
  - split; [lia | reflexivity].
Qed.

Lemma is_status_vivida_cell_at (w a s : Z) :
  is_status vivida (cell_at w a s) = (a * 52 + s <? w).
Proof.
  unfold is_status, cell_at; simpl.
  now destruct (a * 52 + s <? w).
Qed.

(** C1: in every grid that criar_grid_vida builds, every cell has
    semana_absoluta = ano * 52 + semana, its status is "vivida" exactly when
    semana_absoluta < semanas_vividas, and it is "futura" otherwise. *)
Theorem C1_status_iff_before_semanas_vividas (semanas_vividas expectativa_vida : Z) :
  Forall (fun c =>
            semana_absoluta c = ano c * 52 + semana c /\
            (status c = vivida <-> semana_absoluta c < semanas_vividas) /\
            (status c = futura <-> ~ semana_absoluta c < semanas_vividas))
         (cells (criar_grid_vida semanas_vividas expectativa_vida)).
Proof.
  apply Forall_forall. intros c Hc.
  apply In_cells in Hc as [a [s [_ [_ ->]]]].
  split; [reflexivity|]. split.
  - apply status_cell_at.
  - apply status_cell_at_futura.
Qed.

Lemma count_prefix_row (w a : Z) (n : nat) :
  Z.of_nat (length (filter (is_status vivida)
                           (map (cell_at w a) (map Z.of_nat (seq 0 n)))))
  = Z.max 0 (Z.min (Z.of_nat n) (w - a * 52)).
Proof.
  induction n as [|n IH].
  - simpl. lia.
  - rewrite seq_S, !map_app, filter_app, length_app, Nat2Z.inj_add, IH.
    simpl. rewrite is_status_vivida_cell_at.
    destruct (Z.ltb_spec (a * 52 + Z.of_nat n) w); simpl; lia.
Qed.

Lemma count_row (w a : Z) :
  Z.of_nat (length (filter (is_status vivida) (map (cell_at w a) (range 52))))
  = Z.max 0 (Z.min 52 (w - a * 52)).
Proof. unfold range. now rewrite count_prefix_row. Qed.

Lemma count_prefix_grid (w : Z) (n : nat) :
  0 <= w ->
  Z.of_nat (length (filter (is_status vivida)
     (concat (map (fun a => map (cell_at w a) (range 52))
                  (map Z.of_nat (seq 0 n))))))
  = Z.min w (Z.of_nat n * 52).
Proof.
  intro Hw. induction n as [|n IH].
  - simpl. lia.
  - rewrite seq_S, !map_app, concat_app, filter_app, length_app,
      Nat2Z.inj_add, IH.
    cbn [map concat Nat.add]. rewrite app_nil_r, count_row.
    cbn [length]. lia.
Qed.

Lemma count_vivida (w e : Z) :
  0 <= w -> 0 <= e ->
  count_status vivida (criar_grid_vida w e) = Z.min w (e * 52).
Proof.
  intros Hw He. unfold count_status, cells.
  rewrite criar_grid_vida_map. unfold range at 2.
  rewrite count_prefix_grid by assumption. lia.
Qed.

Lemma cells_length (w e : Z) :
  0 <= e -> Z.of_nat (length (cells (criar_grid_vida w e))) = e * 52.
Proof.
  intro He. unfold cells. rewrite criar_grid_vida_map. unfold range at 2.
  replace e with (Z.of_nat (Z.to_nat e)) at 2 by lia.
  generalize (Z.to_nat e) as n. induction n as [|n IH].
  - reflexivity.
  - rewrite seq_S, !map_app, concat_app, length_app, Nat2Z.inj_add, IH.
    cbn [map concat Nat.add]. rewrite app_nil_r, length_map, range_length.
    lia.
Qed.

(** C2: for semanas_vividas >= 0 and expectativa_vida >= 1 the grid holds
    expectativa_vida * 52 cells, exactly min(semanas_vividas,
    expectativa_vida * 52) of them "vivida"; past the expectancy every cell is
    "vivida", and with semanas_vividas = 0 every cell is "futura".  The
    function is total: there is no input on which it raises. *)
Theorem C2_count_vivida (semanas_vividas expectativa_vida : Z) :
  0 <= semanas_vividas -> 1 <= expectativa_vida ->
  let grid := criar_grid_vida semanas_vividas expectativa_vida in
  Z.of_nat (length (cells grid)) = expectativa_vida * 52 /\
  count_status vivida grid = Z.min semanas_vividas (expectativa_vida * 52) /\
  (expectativa_vida * 52 < semanas_vividas ->
   Forall (fun c => status c = vivida) (cells grid)) /\
  (semanas_vividas = 0 -> Forall (fun c => status c = futura) (cells grid)).
Proof.
  intros Hw He grid. subst grid. repeat split.
  - apply cells_length; lia.
  - apply count_vivida; lia.
  - intro Hover. apply Forall_forall. intros c Hc.
    apply In_cells in Hc as [a [s [Ha [Hs ->]]]].
    apply status_cell_at. lia.
  - intros ->. apply Forall_forall. intros c Hc.
    apply In_cells in Hc as [a [s [Ha [Hs ->]]]].
    apply status_cell_at_futura. lia.
Qed.

Lemma C2_count_vivida_witness :
  let grid := criar_grid_vida 60 2 in
  Z.of_nat (length (cells grid)) = 2 * 52 /\
  count_status vivida grid = Z.min 60 (2 * 52) /\
  (2 * 52 < 60 -> Forall (fun c => status c = vivida) (cells grid)) /\
  (60 = 0 -> Forall (fun c => status c = futura) (cells grid)).
Proof. apply (C2_count_vivida 60 2); lia. Defined.

Lemma nth_error_grid (w e : Z) (a s : nat) :
  (a < Z.to_nat e)%nat -> (s < 52)%nat ->
  exists linha,
    nth_error (criar_grid_vida w e) a = Some linha /\
    nth_error linha s = Some (cell_at w (Z.of_nat a) (Z.of_nat s)).
Proof.
  intros Ha Hs. rewrite criar_grid_vida_map.
  exists (map (cell_at w (Z.of_nat a)) (range 52)). split.
  - rewrite nth_error_map, nth_error_range by assumption. reflexivity.
  - rewrite nth_error_map, nth_error_range by (simpl; lia). reflexivity.
Qed.

(** C8: for expectativa_vida >= 1 the grid has exactly expectativa_vida rows,
    every row has exactly 52 cells, and the cell at row yearIndex, column
    weekIndex carries ano = yearIndex, semana = weekIndex and
    semana_absoluta = yearIndex * 52 + weekIndex. *)
Theorem C8_grid_shape (semanas_vividas expectativa_vida : Z) :
  1 <= expectativa_vida ->
  let grid := criar_grid_vida semanas_vividas expectativa_vida in
  Z.of_nat (length grid) = expectativa_vida /\
  Forall (fun linha => length linha = 52%nat) grid /\
  forall yearIndex weekIndex : nat,
    Z.of_nat yearIndex < expectativa_vida -> (weekIndex < 52)%nat ->
    exists linha c,
      nth_error grid yearIndex = Some linha /\
      nth_error linha weekIndex = Some c /\
      ano c = Z.of_nat yearIndex /\
      semana c = Z.of_nat weekIndex /\
      semana_absoluta c = Z.of_nat yearIndex * 52 + Z.of_nat weekIndex.
Proof.
  intros He grid. subst grid. split; [|split].
  - rewrite criar_grid_vida_map, length_map, range_length. lia.
  - rewrite criar_grid_vida_map. apply Forall_forall. intros linha Hl.
    apply in_map_iff in Hl as [a [<- _]].
    now rewrite length_map, range_length.
  - intros a s Ha Hs.
    destruct (nth_error_grid semanas_vividas expectativa_vida a s)
      as [linha [H1 H2]]; [lia | assumption |].
    exists linha, (cell_at semanas_vividas (Z.of_nat a) (Z.of_nat s)).
    repeat split; assumption.
Qed.

Lemma C8_grid_shape_witness :
  let grid := criar_grid_vida 60 80 in
  Z.of_nat (length grid) = 80 /\
  Forall (fun linha => length linha = 52%nat) grid /\
  forall yearIndex weekIndex : nat,
    Z.of_nat yearIndex < 80 -> (weekIndex < 52)%nat ->
    exists linha c,
      nth_error grid yearIndex = Some linha /\
      nth_error linha weekIndex = Some c /\
      ano c = Z.of_nat yearIndex /\
      semana c = Z.of_nat weekIndex /\
      semana_absoluta c = Z.of_nat yearIndex * 52 + Z.of_nat weekIndex.
Proof. apply (C8_grid_shape 60 80). lia. Defined.

(** C10: for a negative semanas_vividas and expectativa_vida >= 1,
    criar_grid_vida returns a grid (the function is total and neither rejects
    nor clamps) of expectativa_vida * 52 cells, every one of them "futura",
    because every semana_absoluta is >= 0. *)
Theorem C10_negative_all_futura (semanas_vividas expectativa_vida : Z) :
  semanas_vividas < 0 -> 1 <= expectativa_vida ->
  let grid := criar_grid_vida semanas_vividas expectativa_vida in
  Z.of_nat (length (cells grid)) = expectativa_vida * 52 /\
  Forall (fun c => 0 <= semana_absoluta c /\ status c = futura) (cells grid).
Proof.
  intros Hw He grid. subst grid. split.
  - apply cells_length; lia.
  - apply Forall_forall. intros c Hc.
    apply In_cells in Hc as [a [s [Ha [Hs ->]]]]. split.
    + simpl. lia.
    + apply status_cell_at_futura. lia.
Qed.

Lemma C10_negative_all_futura_witness :
  let grid := criar_grid_vida (-3) 50 in
  Z.of_nat (length (cells grid)) = 50 * 52 /\
  Forall (fun c => 0 <= semana_absoluta c /\ status c = futura) (cells grid).
Proof. apply (C10_negative_all_futura (-3) 50); lia. Defined.

(** ** Calendar arithmetic *)

Lemma days_before_year_succ (y : Z) :
  _days_before_year (y + 1) = _days_before_year y + 365 + b2z (_is_leap y).
Proof.
  unfold _days_before_year, _is_leap, b2z. cbv zeta.
  replace (y + 1 - 1) with y by lia.
  destruct (Z.eqb_spec (y mod 4) 0), (Z.eqb_spec (y mod 100) 0),
    (Z.eqb_spec (y mod 400) 0); cbn [andb orb negb];
    Z.div_mod_to_equations; lia.
Qed.

Lemma days_before_year_mono (y1 y2 : Z) :
  y1 <= y2 -> _days_before_year y1 <= _days_before_year y2.
Proof.
  unfold _days_before_year. cbv zeta. intro H.
  Z.div_mod_to_equations; lia.
Qed.

Lemma timedelta_new_total (d s us ms mi h w : Z) :
  let total := ((d + w * 7) * 86400 + s + mi * 60 + h * 3600) * 1000000
               + us + ms * 1000 in
  Z.abs (total / us_per_day) <= 999999999 ->
  timedelta_new d s us ms mi h w
  = inr (mk_timedelta (total / us_per_day)
                      (total mod us_per_day / 1000000)
                      (total mod 1000000)).
Proof.
  intros total Hb. unfold timedelta_new. cbv zeta.
  change (24 * 3600) with 86400. change us_per_day with 86400000000 in *.
  set (D := d + w * 7) in *. set (S := s + mi * 60 + h * 3600) in *.
  set (U := us + ms * 1000) in *.
  assert (Ht : total = (D * 86400 + S) * 1000000 + U) by (unfold total; lia).
  clearbody total D S U. subst total.
  assert (E1 : D + S / 86400 + U / 1000000 / 86400
      + (0 + S mod 86400 + U / 1000000 mod 86400 + U mod 1000000 / 1000000) / 86400
      = ((D * 86400 + S) * 1000000 + U) / 86400000000)
    by (Z.div_mod_to_equations; lia).
  assert (E2 : (0 + S mod 86400 + U / 1000000 mod 86400 + U mod 1000000 / 1000000) mod 86400
      = ((D * 86400 + S) * 1000000 + U) mod 86400000000 / 1000000)
    by (Z.div_mod_to_equations; lia).
  assert (E3 : U mod 1000000 mod 1000000 = ((D * 86400 + S) * 1000000 + U) mod 1000000)
    by (Z.div_mod_to_equations; lia).
  rewrite E1, E2, E3.
  destruct (Z.ltb_spec 999999999 (Z.abs (((D * 86400 + S) * 1000000 + U) / 86400000000))).
  - lia.
  - reflexivity.
Qed.

Ltac month_cases m :=
  let H := fresh "Hm" in
  assert (H : m = 1 \/ m = 2 \/ m = 3 \/ m = 4 \/ m = 5 \/ m = 6 \/
              m = 7 \/ m = 8 \/ m = 9 \/ m = 10 \/ m = 11 \/ m = 12) by lia;
  destruct H as [H|[H|[H|[H|[H|[H|[H|[H|[H|[H|[H|H]]]]]]]]]]]; subst m.

Lemma days_in_month_bounds (y m : Z) :
  1 <= m <= 12 -> 28 <= _days_in_month y m <= 31.
Proof.
  intro Hm. unfold _days_in_month.
  month_cases m; destruct (_is_leap y); vm_compute; split; discriminate.
Qed.

Lemma days_before_month_next (y m : Z) :
  1 <= m < 12 ->
  _days_before_month y (m + 1) = _days_before_month y m + _days_in_month y m.
Proof.
  intro Hm. unfold _days_before_month, _days_in_month.
  month_cases m; try lia; destruct (_is_leap y); reflexivity.
Qed.

Lemma days_before_month_first (y : Z) : _days_before_month y 1 = 0.
Proof. reflexivity. Qed.

Lemma days_before_month_last (y : Z) :
  _days_before_month y 12 + _days_in_month y 12 = 365 + b2z (_is_leap y).
Proof. unfold _days_before_month, _days_in_month. destruct (_is_leap y); reflexivity. Qed.

Lemma days_before_month_mono (y m1 m2 : Z) :
  1 <= m1 -> m1 < m2 -> m2 <= 12 ->
  _days_before_month y m1 + _days_in_month y m1 <= _days_before_month y m2.
Proof.
  intros H1 H12 H2.
  replace m2 with (m1 + 1 + Z.of_nat (Z.to_nat (m2 - m1 - 1))) in * by lia.
  generalize dependent (Z.to_nat (m2 - m1 - 1)). intro k.
  induction k as [|k IH]; intros.
  - rewrite Z.add_0_r. rewrite days_before_month_next by lia. lia.
  - rewrite Nat2Z.inj_succ in *.
    replace (m1 + 1 + Z.succ (Z.of_nat k)) with (m1 + 1 + Z.of_nat k + 1) by lia.
    rewrite days_before_month_next by lia.
    pose proof (days_in_month_bounds y (m1 + 1 + Z.of_nat k)).
    lia.
Qed.

Lemma check_date_fields_true (y m d : Z) :
  _check_date_fields y m d = true <->
  1 <= y <= 9999 /\ 1 <= m <= 12 /\ 1 <= d <= _days_in_month y m.
Proof.
  unfold _check_date_fields, MINYEAR, MAXYEAR.
  rewrite !andb_true_iff, !Z.leb_le. tauto.
Qed.

Lemma check_time_fields_true (h mi s us : Z) :
  _check_time_fields h mi s us = true <->
  0 <= h <= 23 /\ 0 <= mi <= 59 /\ 0 <= s <= 59 /\ 0 <= us <= 999999.
Proof.
  unfold _check_time_fields.
  rewrite !andb_true_iff, !Z.leb_le. tauto.
Qed.

Lemma valid_datetime_true (t : datetime) :
  valid_datetime t = true <->
  (1 <= year t <= 9999 /\ 1 <= month t <= 12 /\
   1 <= day t <= _days_in_month (year t) (month t)) /\
  (0 <= hour t <= 23 /\ 0 <= minute t <= 59 /\ 0 <= second t <= 59 /\
   0 <= microsecond t <= 999999).
Proof.
  unfold valid_datetime.
  now rewrite andb_true_iff, check_date_fields_true, check_time_fields_true.
Qed.

Lemma days_before_month_nonneg (y m : Z) :
  1 <= m <= 12 -> 0 <= _days_before_month y m.
Proof.
  intro Hm. destruct (Z.eq_dec m 1) as [->|Hne].
  - now rewrite days_before_month_first.
  - pose proof (days_before_month_mono y 1 m).
    pose proof (days_in_month_bounds y 1).
    rewrite days_before_month_first in *. lia.
Qed.

Lemma days_before_month_end (y m : Z) :
  1 <= m <= 12 ->
  _days_before_month y m + _days_in_month y m <= 365 + b2z (_is_leap y).
Proof.
  intro Hm. rewrite <- days_before_month_last.
  destruct (Z.eq_dec m 12) as [->|Hne]; [lia|].
  pose proof (days_before_month_mono y m 12).
  pose proof (days_in_month_bounds y 12). lia.
Qed.

Lemma ymd2ord_within_year (y m d : Z) :
  1 <= m <= 12 -> 1 <= d <= _days_in_month y m ->
  _days_before_year y < _ymd2ord y m d <= _days_before_year (y + 1).
Proof.
  intros Hm Hd. unfold _ymd2ord. rewrite days_before_year_succ.
  pose proof (days_before_month_nonneg y m Hm).
  pose proof (days_before_month_end y m Hm). lia.
Qed.

Lemma ymd2ord_lt_year (y1 m1 d1 y2 m2 d2 : Z) :
  1 <= m1 <= 12 -> 1 <= d1 <= _days_in_month y1 m1 ->
  1 <= m2 <= 12 -> 1 <= d2 <= _days_in_month y2 m2 ->
  y1 < y2 -> _ymd2ord y1 m1 d1 < _ymd2ord y2 m2 d2.
Proof.
  intros Hm1 Hd1 Hm2 Hd2 Hy.
  pose proof (ymd2ord_within_year y1 m1 d1 Hm1 Hd1).
  pose proof (ymd2ord_within_year y2 m2 d2 Hm2 Hd2).
  pose proof (days_before_year_mono (y1 + 1) y2). lia.
Qed.

Lemma ymd2ord_lt_month (y m1 d1 m2 d2 : Z) :
  1 <= m1 -> d1 <= _days_in_month y m1 ->
  m2 <= 12 -> 1 <= d2 ->
  m1 < m2 -> _ymd2ord y m1 d1 < _ymd2ord y m2 d2.
Proof.
  intros Hm1 Hd1 Hm2 Hd2 Hm. unfold _ymd2ord.
  pose proof (days_before_month_mono y m1 m2). lia.
Qed.

Lemma ymd2ord_range (y m d : Z) :
  _check_date_fields y m d = true -> 1 <= _ymd2ord y m d <= _MAXORDINAL.
Proof.
  intro H. apply check_date_fields_true in H as [Hy [Hm Hd]].
  pose proof (ymd2ord_within_year y m d Hm Hd).
  pose proof (days_before_year_mono 1 y).
  pose proof (days_before_year_mono (y + 1) 10000).
  change (_days_before_year 1) with 0 in *.
  change (_days_before_year 10000) with 3652059 in *.
  unfold _MAXORDINAL. lia.
Qed.

Lemma toordinal_range (t : datetime) :
  valid_datetime t = true -> 1 <= toordinal t <= _MAXORDINAL.
Proof.
  unfold valid_datetime, toordinal. intro H.
  apply andb_true_iff in H as [H _]. now apply ymd2ord_range.
Qed.

Lemma datetime_cmp_to_us (a b : datetime) :
  valid_datetime a = true -> valid_datetime b = true ->
  datetime_cmp a b = (to_us a ?= to_us b).
Proof.
  intros Ha Hb.
  apply valid_datetime_true in Ha as [[Hya [Hma Hda]] [Hha [Hmia [Hsa Husa]]]].
  apply valid_datetime_true in Hb as [[Hyb [Hmb Hdb]] [Hhb [Hmib [Hsb Husb]]]].
  destruct a as [y1 m1 d1 h1 mi1 s1 u1], b as [y2 m2 d2 h2 mi2 s2 u2].
  unfold datetime_cmp, datetime_fields, to_us, toordinal.
  cbn [year month day hour minute second microsecond _cmp] in *.
  symmetry.
  destruct (Z.compare_spec y1 y2) as [->|Hy|Hy].
  2: { apply Z.compare_lt_iff.
       pose proof (ymd2ord_lt_year y1 m1 d1 y2 m2 d2). lia. }
  2: { apply Z.compare_gt_iff.
       pose proof (ymd2ord_lt_year y2 m2 d2 y1 m1 d1). lia. }
  destruct (Z.compare_spec m1 m2) as [->|Hm|Hm].
  2: { apply Z.compare_lt_iff.
       pose proof (ymd2ord_lt_month y2 m1 d1 m2 d2). lia. }
  2: { apply Z.compare_gt_iff.
       pose proof (ymd2ord_lt_month y2 m2 d2 m1 d1). lia. }
  unfold _ymd2ord.
  destruct (Z.compare_spec d1 d2) as [->|Hd|Hd];
    [| apply Z.compare_lt_iff; lia | apply Z.compare_gt_iff; lia].
  destruct (Z.compare_spec h1 h2) as [->|Hh|Hh];
    [| apply Z.compare_lt_iff; lia | apply Z.compare_gt_iff; lia].
  destruct (Z.compare_spec mi1 mi2) as [->|Hmi|Hmi];
    [| apply Z.compare_lt_iff; lia | apply Z.compare_gt_iff; lia].
  destruct (Z.compare_spec s1 s2) as [->|Hs|Hs];
    [| apply Z.compare_lt_iff; lia | apply Z.compare_gt_iff; lia].
  destruct (Z.compare_spec u1 u2) as [->|Hu|Hu];
    [apply Z.compare_refl | apply Z.compare_lt_iff; lia
     | apply Z.compare_gt_iff; lia].
Qed.

Lemma to_us_day_bounds (t : datetime) :
  valid_datetime t = true ->
  toordinal t * us_per_day <= to_us t < (toordinal t + 1) * us_per_day.
Proof.
  intro H. apply valid_datetime_true in H as [_ [Hh [Hm [Hs Hu]]]].
  unfold to_us, us_per_day. lia.
Qed.

Lemma datetime_sub_days (a b : datetime) :
  valid_datetime a = true -> valid_datetime b = true ->
  exists td, datetime_sub a b = inr td /\
             days td = (to_us a - to_us b) / us_per_day.
Proof.
  intros Ha Hb. unfold datetime_sub. cbv zeta.
  pose proof (toordinal_range a Ha) as Ra.
  pose proof (toordinal_range b Hb) as Rb.
  pose proof (to_us_day_bounds a Ha) as Ba.
  pose proof (to_us_day_bounds b Hb) as Bb.
  rewrite timedelta_new_total.
  - eexists. split; [reflexivity|]. cbn [days]. f_equal.
    unfold to_us. lia.
  - replace (((toordinal a - toordinal b + 0 * 7) * 86400
              + (second a + minute a * 60 + hour a * 3600
                 - (second b + minute b * 60 + hour b * 3600))
              + 0 * 60 + 0 * 3600) * 1000000
             + (microsecond a - microsecond b) + 0 * 1000)
      with (to_us a - to_us b) by (unfold to_us; lia).
    unfold _MAXORDINAL, us_per_day in *.
    Z.div_mod_to_equations. lia.
Qed.

Lemma calcular_semanas_vividas_value (now b r : datetime) :
  valid_datetime b = true -> valid_datetime r = true ->
  calcular_semanas_vividas now b (Some r) = inr (daysBetween b r / 7) /\
  delta_days b r = inr (daysBetween b r).
Proof.
  intros Hb Hr. unfold calcular_semanas_vividas, delta_days, daysBetween.
  destruct (datetime_sub_days r b Hr Hb) as [td [-> Hd]].
  cbn [bind]. rewrite Hd. split; reflexivity.
Qed.

Lemma datetime_le_to_us (a b : datetime) :
  valid_datetime a = true -> valid_datetime b = true ->
  datetime_le a b = true <-> to_us a <= to_us b.
Proof.
  intros Ha Hb. unfold datetime_le. rewrite datetime_cmp_to_us by assumption.
  destruct (Z.compare_spec (to_us a) (to_us b)); split; intros; lia || easy.
Qed.

Lemma datetime_lt_to_us (a b : datetime) :
  valid_datetime a = true -> valid_datetime b = true ->
  datetime_lt a b = true <-> to_us a < to_us b.
Proof.
  intros Ha Hb. unfold datetime_lt. rewrite datetime_cmp_to_us by assumption.
  destruct (Z.compare_spec (to_us a) (to_us b)); split; intros; lia || easy.
Qed.

Example days_before_month_table :
  _DAYS_BEFORE_MONTH = [-1; 0; 31; 59; 90; 120; 151; 181; 212; 243; 273; 304; 334].
Proof. reflexivity. Qed.

Example datetime_new_1990 :
  datetime_new 1990 1 1 0 0 0 0 = inr (mk_datetime 1990 1 1 0 0 0 0) /\
  datetime_new 2023 2 29 0 0 0 0 = inl ValueError.
Proof. split; reflexivity. Qed.

Lemma datetime_new_valid (y m d h mi s us : Z) (t : datetime) :
  datetime_new y m d h mi s us = inr t -> valid_datetime t = true.
Proof.
  unfold datetime_new, valid_datetime.
  destruct (_check_date_fields y m d && _check_time_fields h mi s us) eqn:E;
    [|discriminate].
  intro H. injection H as <-. exact E.
Qed.

Lemma main_data_nascimento_valid (d : date) :
  _check_date_fields (date_year d) (date_month d) (date_day d) = true ->
  valid_datetime (main_data_nascimento d) = true /\
  to_us (main_data_nascimento d)
  = _ymd2ord (date_year d) (date_month d) (date_day d) * us_per_day.
Proof.
  intro H. unfold main_data_nascimento, datetime_combine, valid_datetime, to_us,
    toordinal, time_min, us_per_day.
  cbn [year month day hour minute second microsecond
       time_hour time_minute time_second time_microsecond].
  rewrite H. split; [reflexivity | lia].
Qed.

(** ** The week counter *)

(** C7: for valid datetimes with referenceDate >= birthDate the week counter
    returns floor(daysBetween / 7), where daysBetween (>= 0) is the elapsed
    whole days delta.days; and for a fixed birthDate the result does not
    decrease as referenceDate advances. *)
Theorem C7_floor_and_monotone (now birthDate : datetime) :
  valid_datetime birthDate = true ->
  (forall referenceDate,
      valid_datetime referenceDate = true ->
      datetime_le birthDate referenceDate = true ->
      let w := daysBetween birthDate referenceDate / 7 in
      delta_days birthDate referenceDate
      = inr (daysBetween birthDate referenceDate) /\
      calcular_semanas_vividas now birthDate (Some referenceDate) = inr w /\
      0 <= daysBetween birthDate referenceDate /\
      7 * w <= daysBetween birthDate referenceDate < 7 * w + 7) /\
  (forall referenceDate1 referenceDate2,
      valid_datetime referenceDate1 = true ->
      valid_datetime referenceDate2 = true ->
      datetime_le referenceDate1 referenceDate2 = true ->
      exists w1 w2,
        calcular_semanas_vividas now birthDate (Some referenceDate1) = inr w1 /\
        calcular_semanas_vividas now birthDate (Some referenceDate2) = inr w2 /\
        w1 <= w2).
Proof.
  intro Hb. split.
  - intros r Hr Hle w. subst w.
    apply datetime_le_to_us in Hle; [|assumption..].
    destruct (calcular_semanas_vividas_value now birthDate r Hb Hr) as [E D].
    repeat split; try assumption.
    + unfold daysBetween, us_per_day. apply Z.div_pos; lia.
    + Z.div_mod_to_equations; lia.
    + Z.div_mod_to_equations; lia.
  - intros r1 r2 H1 H2 Hle.
    apply datetime_le_to_us in Hle; [|assumption..].
    destruct (calcular_semanas_vividas_value now birthDate r1 Hb H1) as [E1 _].
    destruct (calcular_semanas_vividas_value now birthDate r2 Hb H2) as [E2 _].
    exists (daysBetween birthDate r1 / 7), (daysBetween birthDate r2 / 7).
    repeat split; try assumption.
    apply Z.div_le_mono; [lia|]. unfold daysBetween.
    apply Z.div_le_mono; [reflexivity | lia].
Qed.

Lemma C7_floor_and_monotone_witness :
  let now := mk_datetime 2024 1 1 12 30 0 0 in
  let birthDate := mk_datetime 1990 1 1 0 0 0 0 in
  (forall referenceDate,
      valid_datetime referenceDate = true ->
      datetime_le birthDate referenceDate = true ->
      let w := daysBetween birthDate referenceDate / 7 in
      delta_days birthDate referenceDate
      = inr (daysBetween birthDate referenceDate) /\
      calcular_semanas_vividas now birthDate (Some referenceDate) = inr w /\
      0 <= daysBetween birthDate referenceDate /\
      7 * w <= daysBetween birthDate referenceDate < 7 * w + 7) /\
  (forall referenceDate1 referenceDate2,
      valid_datetime referenceDate1 = true ->
      valid_datetime referenceDate2 = true ->
      datetime_le referenceDate1 referenceDate2 = true ->
      exists w1 w2,
        calcular_semanas_vividas now birthDate (Some referenceDate1) = inr w1 /\
        calcular_semanas_vividas now birthDate (Some referenceDate2) = inr w2 /\
        w1 <= w2).
Proof.
  apply (C7_floor_and_monotone (mk_datetime 2024 1 1 12 30 0 0)
                               (mk_datetime 1990 1 1 0 0 0 0)).
  reflexivity.
Defined.

(** C4, as the specification states it, fails: a reference date one day
    before the birth date gives -1, neither clamped nor rejected. *)
Lemma C4_negative_result_counterexample :
  ~ nonneg_or_rejected
      (calcular_semanas_vividas (mk_datetime 2024 1 1 0 0 0 0)
                                (mk_datetime 2024 1 2 0 0 0 0)
                                (Some (mk_datetime 2024 1 1 0 0 0 0))).
Proof. vm_compute. intro H. now apply H. Qed.

(** C4 (amended): on valid datetimes calcular_semanas_vividas always returns
    an integer and never raises; the integer is >= 0 when referenceDate >=
    birthDate and strictly negative when referenceDate < birthDate: the
    function neither clamps nor rejects. *)
Theorem C4_sign_follows_order (now birthDate referenceDate : datetime) :
  valid_datetime birthDate = true ->
  valid_datetime referenceDate = true ->
  exists n,
    calcular_semanas_vividas now birthDate (Some referenceDate) = inr n /\
    (datetime_le birthDate referenceDate = true -> 0 <= n) /\
    (datetime_lt referenceDate birthDate = true -> n < 0).
Proof.
  intros Hb Hr.
  destruct (calcular_semanas_vividas_value now birthDate referenceDate Hb Hr)
    as [E _].
  exists (daysBetween birthDate referenceDate / 7). split; [assumption|].
  unfold daysBetween, us_per_day. split; intro H.
  - apply datetime_le_to_us in H; [|assumption..].
    Z.div_mod_to_equations; lia.
  - apply datetime_lt_to_us in H; [|assumption..].
    Z.div_mod_to_equations; lia.
Qed.

Lemma C4_sign_follows_order_witness :
  exists n,
    calcular_semanas_vividas (mk_datetime 2024 1 1 0 0 0 0)
                             (mk_datetime 2024 1 2 0 0 0 0)
                             (Some (mk_datetime 2023 12 25 8 0 0 0)) = inr n /\
    (datetime_le (mk_datetime 2024 1 2 0 0 0 0)
                 (mk_datetime 2023 12 25 8 0 0 0) = true -> 0 <= n) /\
    (datetime_lt (mk_datetime 2023 12 25 8 0 0 0)
                 (mk_datetime 2024 1 2 0 0 0 0) = true -> n < 0).
Proof.
  apply (C4_sign_follows_order (mk_datetime 2024 1 1 0 0 0 0)
                               (mk_datetime 2024 1 2 0 0 0 0)
                               (mk_datetime 2023 12 25 8 0 0 0));
    reflexivity.
Defined.

(** C9, as the specification states it, fails: from 1990-01-01 to 2024-01-01
    the elapsed days are not 12,419. *)
Lemma C9_elapsed_days_counterexample :
  delta_days (mk_datetime 1990 1 1 0 0 0 0) (mk_datetime 2024 1 1 0 0 0 0)
  <> inr 12419.
Proof. vm_compute. discriminate. Qed.

(** C9 (amended): for birthDate = 1990-01-01 and referenceDate = 2024-01-01
    the elapsed days are 12,418 and calcular_semanas_vividas returns 1,774;
    with expectativa_vida = 80, total_semanas = 4,160 and semanas_restantes =
    2,386. *)
Theorem C9_example_1990_2024 (now : datetime) :
  let birthDate := mk_datetime 1990 1 1 0 0 0 0 in
  let referenceDate := mk_datetime 2024 1 1 0 0 0 0 in
  delta_days birthDate referenceDate = inr 12418 /\
  calcular_semanas_vividas now birthDate (Some referenceDate) = inr 1774 /\
  calcular_semanas_vividas referenceDate birthDate None = inr 1774 /\
  total_semanas 80 = 4160 /\
  semanas_restantes 1774 80 = 2386.
Proof. repeat split; vm_compute; reflexivity. Qed.

(** ** The statistics *)

(** C3, as the specification states it, fails: past the expectancy the
    remaining weeks are negative, not 0. *)
Lemma C3_remaining_not_clamped_counterexample :
  semanas_restantes 10000 80 <> Z.max 0 (total_semanas 80 - 10000).
Proof. vm_compute. discriminate. Qed.

(** C3 (amended): semanas_restantes is total_semanas - semanas_vividas with
    total_semanas = expectativa_vida * 52; it is max(0, total_semanas -
    semanas_vividas) exactly when semanas_vividas <= total_semanas, and it is
    negative exactly when semanas_vividas > total_semanas. *)
Theorem C3_remaining_is_difference (semanas_vividas expectativa_vida : Z) :
  total_semanas expectativa_vida = expectativa_vida * 52 /\
  semanas_restantes semanas_vividas expectativa_vida
  = total_semanas expectativa_vida - semanas_vividas /\
  (semanas_restantes semanas_vividas expectativa_vida
   = Z.max 0 (total_semanas expectativa_vida - semanas_vividas)
   <-> semanas_vividas <= total_semanas expectativa_vida) /\
  (semanas_restantes semanas_vividas expectativa_vida < 0
   <-> total_semanas expectativa_vida < semanas_vividas).
Proof. unfold semanas_restantes, total_semanas. lia. Qed.

(** ** From ordinals back to dates, and datetime + timedelta *)

Lemma month_day_spec (leap : bool) (n : Z) :
  0 <= n < 365 + b2z leap ->
  let '(m, d) := _month_day leap n in
  1 <= m <= 12 /\
  1 <= d <= (if (m =? 2) && leap then 29 else item _DAYS_IN_MONTH m) /\
  item _DAYS_BEFORE_MONTH m + b2z ((2 <? m) && leap) + d = n + 1.
Proof.
  intro Hn.
  assert (Hall : forall lp,
    forallb (fun k =>
      let n := Z.of_nat k in
      let '(m, d) := _month_day lp n in
      negb (n <? 365 + b2z lp) ||
      ((1 <=? m) && (m <=? 12) && (1 <=? d)
       && (d <=? (if (m =? 2) && lp then 29 else item _DAYS_IN_MONTH m))
       && (item _DAYS_BEFORE_MONTH m + b2z ((2 <? m) && lp) + d =? n + 1)))
      (seq 0 366) = true)
    by (intros []; vm_compute; reflexivity).
  specialize (Hall leap). rewrite forallb_forall in Hall.
  specialize (Hall (Z.to_nat n)).
  rewrite Z2Nat.id in Hall by lia. cbv zeta in Hall.
  destruct (_month_day leap n) as [m d].
  assert (Hin : In (Z.to_nat n) (seq 0 366))
    by (apply in_seq; destruct leap; simpl in Hn; lia).
  specialize (Hall Hin).
  destruct (Z.ltb_spec n (365 + b2z leap)); [|lia].
  cbn [negb orb] in Hall.
  rewrite !andb_true_iff, !Z.leb_le, Z.eqb_eq in Hall. tauto.
Qed.

Lemma days_before_year_cycles (a b c d : Z) :
  0 <= b <= 3 -> 0 <= c <= 24 -> 0 <= d <= 3 ->
  _days_before_year (a * 400 + b * 100 + c * 4 + d + 1)
  = 146097 * a + 36524 * b + 1461 * c + 365 * d.
Proof.
  intros Hb Hc Hd. unfold _days_before_year. cbv zeta.
  replace (a * 400 + b * 100 + c * 4 + d + 1 - 1)
    with (a * 400 + b * 100 + c * 4 + d) by lia.
  assert (E4 : (a * 400 + b * 100 + c * 4 + d) / 4 = a * 100 + b * 25 + c).
  { replace (a * 400 + b * 100 + c * 4 + d)
      with (d + (a * 100 + b * 25 + c) * 4) by lia.
    rewrite Z.div_add, Z.div_small by lia. lia. }
  assert (E100 : (a * 400 + b * 100 + c * 4 + d) / 100 = a * 4 + b).
  { replace (a * 400 + b * 100 + c * 4 + d)
      with (c * 4 + d + (a * 4 + b) * 100) by lia.
    rewrite Z.div_add, Z.div_small by lia. lia. }
  assert (E400 : (a * 400 + b * 100 + c * 4 + d) / 400 = a).
  { replace (a * 400 + b * 100 + c * 4 + d)
      with (b * 100 + c * 4 + d + a * 400) by lia.
    rewrite Z.div_add, Z.div_small by lia. lia. }
  rewrite E4, E100, E400. lia.
Qed.

Lemma ord2ymd_spec (n : Z) :
  1 <= n ->
  let '(y, m, d) := _ord2ymd n in
  1 <= y /\ 1 <= m <= 12 /\ 1 <= d <= _days_in_month y m /\
  _ymd2ord y m d = n.
Proof.
  intro Hn. unfold _ord2ymd. cbv zeta.
  change _DI400Y with 146097. change _DI100Y with 36524.
  change _DI4Y with 1461.
  set (N := n - 1).
  set (a := N / 146097). set (r1 := N mod 146097).
  set (b := r1 / 36524). set (r2 := r1 mod 36524).
  set (c := r2 / 1461). set (r3 := r2 mod 1461).
  set (d1 := r3 / 365). set (r4 := r3 mod 365).
  assert (HN : 0 <= N) by (unfold N; lia).
  assert (Ha : N = 146097 * a + r1 /\ 0 <= r1 < 146097 /\ 0 <= a)
    by (unfold a, r1; Z.div_mod_to_equations; lia).
  assert (Hb : r1 = 36524 * b + r2 /\ 0 <= r2 < 36524 /\ 0 <= b <= 4)
    by (unfold b, r2; Z.div_mod_to_equations; lia).
  assert (Hc : r2 = 1461 * c + r3 /\ 0 <= r3 < 1461 /\ 0 <= c <= 24)
    by (unfold c, r3; Z.div_mod_to_equations; lia).
  assert (Hd : r3 = 365 * d1 + r4 /\ 0 <= r4 < 365 /\ 0 <= d1 <= 4)
    by (unfold d1, r4; Z.div_mod_to_equations; lia).
  assert (En : n = N + 1) by (unfold N; lia).
  clearbody N a r1 b r2 c r3 d1 r4.
  destruct ((d1 =? 4) || (b =? 4)) eqn:Hlast.
  - (* the last day of a leap year *)
    apply orb_true_iff in Hlast. rewrite !Z.eqb_eq in Hlast.
    assert (Hleap : _is_leap (a * 400 + 1 + b * 100 + c * 4 + d1 - 1) = true).
    { unfold _is_leap.
      rewrite andb_true_iff, orb_true_iff, negb_true_iff, Z.eqb_neq, !Z.eqb_eq.
      destruct Hlast as [-> | ->].
      - assert (Hc23 : c <= 23) by lia. split; [|left].
        + replace (a * 400 + 1 + b * 100 + c * 4 + 4 - 1)
            with ((a * 100 + b * 25 + c + 1) * 4) by lia.
          apply Z.mod_mul. lia.
        + replace (a * 400 + 1 + b * 100 + c * 4 + 4 - 1)
            with (4 * (c + 1) + (4 * a + b) * 100) by lia.
          rewrite Z.mod_add, Z.mod_small by lia. lia.
      - assert (Hz : c = 0 /\ d1 = 0) by lia. destruct Hz as [-> ->].
        split; [|right].
        + replace (a * 400 + 1 + 4 * 100 + 0 * 4 + 0 - 1)
            with ((a * 100 + 100) * 4) by lia.
          apply Z.mod_mul. lia.
        + replace (a * 400 + 1 + 4 * 100 + 0 * 4 + 0 - 1)
            with ((a + 1) * 400) by lia.
          apply Z.mod_mul. lia. }
    unfold _ymd2ord, _days_before_month, _days_in_month.
    rewrite Hleap.
    change (item _DAYS_BEFORE_MONTH 12) with 334.
    change (item _DAYS_IN_MONTH 12) with 31.
    change (12 =? 2) with false. change (2 <? 12) with true.
    cbn [andb b2z].
    split; [lia|]. split; [lia|]. split; [lia|].
    destruct Hlast as [-> | ->].
    + replace (a * 400 + 1 + b * 100 + c * 4 + 4 - 1)
        with (a * 400 + b * 100 + c * 4 + 3 + 1) by lia.
      rewrite days_before_year_cycles by lia. lia.
    + replace (a * 400 + 1 + 4 * 100 + c * 4 + d1 - 1)
        with (a * 400 + 3 * 100 + 24 * 4 + 3 + 1) by lia.
      rewrite days_before_year_cycles by lia. lia.
  - apply orb_false_iff in Hlast. rewrite !Z.eqb_neq in Hlast.
    set (y := a * 400 + 1 + b * 100 + c * 4 + d1).
    set (leapyear := (d1 =? 3) && (negb (c =? 24) || (b =? 3))).
    assert (Hleap : _is_leap y = leapyear).
    { unfold _is_leap, leapyear, y.
      destruct (Z.eqb_spec d1 3), (Z.eqb_spec c 24), (Z.eqb_spec b 3);
        cbn [andb orb negb];
        repeat match goal with
               | |- context [Z.eqb ?u 0] => destruct (Z.eqb_spec u 0)
               end; cbn [andb orb negb]; try reflexivity; exfalso;
        Z.div_mod_to_equations; lia. }
    pose proof (month_day_spec leapyear r4) as Hmd.
    destruct (_month_day leapyear r4) as [m d].
    destruct Hmd as [Hm [Hdd Hsum]]; [destruct leapyear; simpl; lia|].
    unfold _ymd2ord, _days_before_month, _days_in_month. rewrite Hleap.
    split; [unfold y; lia|]. split; [assumption|]. split; [assumption|].
    assert (Hy : _days_before_year y
                 = 146097 * a + 36524 * b + 1461 * c + 365 * d1).
    { unfold y.
      replace (a * 400 + 1 + b * 100 + c * 4 + d1)
        with (a * 400 + b * 100 + c * 4 + d1 + 1) by lia.
      apply days_before_year_cycles; lia. }
    rewrite Hy. lia.
Qed.

Lemma timedelta_new_carried (d s us mi h w : Z) :
  0 <= s + mi * 60 + h * 3600 < 86400 -> 0 <= us < 1000000 ->
  Z.abs (d + w * 7) <= 999999999 ->
  timedelta_new d s us 0 mi h w
  = inr (mk_timedelta (d + w * 7) (s + mi * 60 + h * 3600) us).
Proof.
  intros Hs Hus Hd. rewrite timedelta_new_total.
  - f_equal. unfold us_per_day. f_equal; Z.div_mod_to_equations; lia.
  - unfold us_per_day.
    replace ((((d + w * 7) * 86400 + s + mi * 60 + h * 3600) * 1000000
              + us + 0 * 1000) / (24 * 3600 * 1000000))
      with (d + w * 7); [assumption|].
    Z.div_mod_to_equations; lia.
Qed.

Lemma timedelta_weeks_value (k : Z) :
  Z.abs (k * 7) <= 999999999 ->
  timedelta_weeks k = inr (mk_timedelta (k * 7) 0 0).
Proof.
  intro Hk. unfold timedelta_weeks.
  rewrite timedelta_new_carried by lia. reflexivity.
Qed.

Lemma ord2ymd_check (n : Z) :
  1 <= n <= _MAXORDINAL ->
  let '(y, m, d) := _ord2ymd n in
  _check_date_fields y m d = true /\ _ymd2ord y m d = n.
Proof.
  intros [Hlo Hhi]. pose proof (ord2ymd_spec n Hlo) as H.
  destruct (_ord2ymd n) as [[y m] d].
  destruct H as [Hy [Hm [Hd Ho]]]. split; [|assumption].
  apply check_date_fields_true. repeat split; try lia.
  destruct (Z_le_gt_dec y 9999) as [|Hbig]; [assumption|exfalso].
  pose proof (ymd2ord_within_year y m d Hm Hd).
  pose proof (days_before_year_mono 10000 y).
  change (_days_before_year 10000) with 3652059 in *.
  unfold _MAXORDINAL in *. lia.
Qed.

Lemma datetime_add_weeks (t : datetime) (k : Z) :
  valid_datetime t = true ->
  1 <= toordinal t + k * 7 <= _MAXORDINAL ->
  exists td t',
    timedelta_weeks k = inr td /\
    datetime_add t td = inr t' /\
    valid_datetime t' = true /\
    toordinal t' = toordinal t + k * 7 /\
    hour t' = hour t /\ minute t' = minute t /\ second t' = second t /\
    microsecond t' = microsecond t.
Proof.
  intros Ht Hk.
  pose proof (toordinal_range t Ht) as Rt.
  pose proof Ht as Hv.
  apply valid_datetime_true in Hv as [_ [Hh [Hmi [Hs Hus]]]].
  unfold _MAXORDINAL in *.
  exists (mk_timedelta (k * 7) 0 0).
  rewrite timedelta_weeks_value by lia.
  unfold datetime_add. change _MAXORDINAL with 3652059.
  rewrite timedelta_new_carried by lia. cbn [bind].
  unfold timedelta_add. cbn [days seconds microseconds].
  rewrite timedelta_new_carried by lia. cbn [bind days seconds microseconds].
  replace (toordinal t + 0 * 7 + k * 7 + 0 * 7) with (toordinal t + k * 7) by lia.
  replace (second t + minute t * 60 + hour t * 3600 + 0 + 0 * 60 + 0 * 3600)
    with (second t + minute t * 60 + hour t * 3600) by lia.
  rewrite Z.add_0_r.
  destruct (Z.ltb_spec 0 (toordinal t + k * 7)); [|lia].
  destruct (Z.leb_spec (toordinal t + k * 7) 3652059); [|lia].
  cbn [andb].
  pose proof (ord2ymd_check (toordinal t + k * 7)) as Ho.
  unfold date_fromordinal.
  destruct (_ord2ymd (toordinal t + k * 7)) as [[y m] d].
  destruct Ho as [Hc Ho]; [unfold _MAXORDINAL; lia|].
  unfold date_new. rewrite Hc. cbn [bind ret].
  assert (Eh : (second t + minute t * 60 + hour t * 3600) / 3600 = hour t)
    by (Z.div_mod_to_equations; lia).
  assert (Em : (second t + minute t * 60 + hour t * 3600) mod 3600 / 60
               = minute t) by (Z.div_mod_to_equations; lia).
  assert (Es : ((second t + minute t * 60 + hour t * 3600) mod 3600) mod 60
               = second t) by (Z.div_mod_to_equations; lia).
  rewrite Eh, Em, Es.
  assert (Hct : _check_time_fields (hour t) (minute t) (second t)
                                   (microsecond t) = true)
    by (apply check_time_fields_true; lia).
  unfold time_new. rewrite Hct. cbn [bind ret].
  eexists. split; [reflexivity|]. split; [reflexivity|].
  unfold valid_datetime, toordinal, datetime_combine.
  cbn [year month day hour minute second microsecond
       date_year date_month date_day
       time_hour time_minute time_second time_microsecond].
  rewrite Hc, Hct. repeat split; assumption.
Qed.

(** ** The CSV export *)

Lemma map_seq_shift {A : Type} (f : nat -> A) (a len : nat) :
  map f (seq a len) = map (fun k => f (a + k)%nat) (seq 0 len).
Proof.
  revert a. induction len as [|len IH]; intro a.
  - reflexivity.
  - rewrite !seq_S, !map_app, IH. cbn [map]. reflexivity.
Qed.

Lemma cells_flat_prefix (w : Z) (n : nat) :
  concat (map (fun a => map (cell_at w a) (range 52)) (map Z.of_nat (seq 0 n)))
  = map (fun i => cell_at w (i / 52) (i mod 52))
        (map Z.of_nat (seq 0 (n * 52))).
Proof.
  induction n as [|n IH].
  - reflexivity.
  - rewrite seq_S, !map_app, concat_app, IH. cbn [map concat Nat.add].
    rewrite app_nil_r.
    replace (S n * 52)%nat with (n * 52 + 52)%nat by lia.
    rewrite seq_app, !map_app. f_equal.
    unfold range. change (Z.to_nat 52) with 52%nat.
    rewrite (map_map Z.of_nat (cell_at w (Z.of_nat n))).
    rewrite map_map, (map_seq_shift _ (0 + n * 52)).
    apply map_ext_in. intros k Hk. apply in_seq in Hk.
    replace (Z.of_nat (0 + n * 52 + k))
      with (Z.of_nat k + Z.of_nat n * 52) by lia.
    rewrite Z.div_add, Z.mod_add, Z.div_small, Z.mod_small by lia.
    reflexivity.
Qed.

Lemma cells_flat (w e : Z) :
  cells (criar_grid_vida w e)
  = map (fun i => cell_at w (i / 52) (i mod 52)) (range (e * 52)).
Proof.
  unfold cells. rewrite criar_grid_vida_map. unfold range at 2.
  rewrite cells_flat_prefix. unfold range. do 3 f_equal. lia.
Qed.

Lemma for_append_py_map {A B : Type} (f : A -> Py B) (g : A -> B)
      (xs : list A) (acc : list B) :
  (forall x, In x xs -> f x = inr (g x)) ->
  for_append_py xs f acc = inr (acc ++ map g xs).
Proof.
  unfold for_append_py, ret. revert acc.
  induction xs as [|x xs IH]; intros acc Hf.
  - cbn. now rewrite app_nil_r.
  - cbn [fold_left bind map]. rewrite (Hf x) by now left.
    cbn [bind]. rewrite IH by (intros; apply Hf; now right).
    now rewrite <- app_assoc.
Qed.

Lemma dados_csv_map (g : Cell -> CsvRow) (grid : list (list Cell))
      (data_nascimento : datetime) :
  (forall c, In c (cells grid) -> csv_row data_nascimento c = inr (g c)) ->
  dados_csv grid data_nascimento = inr (map g (cells grid)).
Proof.
  unfold dados_csv, cells, ret.
  change (@inr exn (list CsvRow) (map g (concat grid)))
    with (@inr exn (list CsvRow) ([] ++ map g (concat grid))).
  generalize (@nil CsvRow) as acc.
  induction grid as [|linha grid IH]; intros acc Hg.
  - cbn. now rewrite app_nil_r.
  - cbn [fold_left bind concat].
    rewrite (for_append_py_map _ g)
      by (intros; apply Hg; cbn [concat]; apply in_or_app; now left).
    rewrite IH by (intros; apply Hg; cbn [concat]; apply in_or_app; now right).
    now rewrite map_app, app_assoc.
Qed.

Lemma csv_row_value (data_nascimento : datetime) (c : Cell) :
  valid_datetime data_nascimento = true ->
  1 <= toordinal data_nascimento + semana_absoluta c * 7 <= _MAXORDINAL ->
  exists td t,
    timedelta_weeks (semana_absoluta c) = inr td /\
    datetime_add data_nascimento td = inr t /\
    csv_row data_nascimento c
    = inr (mkCsvRow (ano c + 1) (semana c + 1) (semana_absoluta c + 1)
                    (status c) (strftime_Ymd t)) /\
    valid_datetime t = true /\
    toordinal t = toordinal data_nascimento + semana_absoluta c * 7 /\
    hour t = hour data_nascimento /\ minute t = minute data_nascimento /\
    second t = second data_nascimento /\
    microsecond t = microsecond data_nascimento.
Proof.
  intros Hv Hr.
  destruct (datetime_add_weeks data_nascimento (semana_absoluta c) Hv Hr)
    as [td [t [Etd [Et Hrest]]]].
  exists td, t. unfold csv_row. rewrite Etd. cbn [bind]. rewrite Et.
  cbn [bind]. repeat split; apply Hrest.
Qed.

Lemma strftime_Ymd_text (t : datetime) :
  let dg := fun n : Z => ascii_of_nat (48 + Z.to_nat (n mod 10)) in
  strftime_Ymd t
  = String (dg (year t / 1000)) (String (dg (year t / 100))
      (String (dg (year t / 10)) (String (dg (year t))
        (String "-"%char
          (String (dg (month t / 10)) (String (dg (month t))
            (String "-"%char
              (String (dg (day t / 10)) (String (dg (day t))
                 EmptyString))))))))).
Proof. reflexivity. Qed.

Lemma toordinal_year_mono (a b : datetime) :
  valid_datetime a = true -> valid_datetime b = true ->
  toordinal a <= toordinal b -> year a <= year b.
Proof.
  intros Ha Hb Hle.
  apply valid_datetime_true in Ha as [[_ [Hma Hda]] _].
  apply valid_datetime_true in Hb as [[_ [Hmb Hdb]] _].
  destruct (Z_le_gt_dec (year a) (year b)) as [H|H]; [exact H|exfalso].
  pose proof (ymd2ord_lt_year (year b) (month b) (day b)
                              (year a) (month a) (day a) Hmb Hdb Hma Hda).
  unfold toordinal in Hle. lia.
Qed.

(** C6: the CSV export has exactly expectativa_vida * 52 rows; the row at
    0-based position i (the absolute week index) has Ano = i // 52 + 1,
    Semana_do_Ano = i % 52 + 1, Semana_Absoluta = i + 1, the cell's status
    ("vivida" iff i < semanas_vividas, else "futura"), and Data_Aproximada is
    the '%Y-%m-%d' text of data_nascimento + timedelta(weeks=i), a datetime
    7 * i days after the birth date at the same time of day: ten characters,
    the four decimal digits of its year, "-", the two digits of its month,
    "-", the two digits of its day, the year being at least the birth year.
    The last date has to exist in the calendar of datetime (up to
    9999-12-31). *)
Theorem C6_csv_rows (semanas_vividas expectativa_vida : Z)
        (data_nascimento : datetime) :
  valid_datetime data_nascimento = true ->
  1 <= expectativa_vida ->
  toordinal data_nascimento + (expectativa_vida * 52 - 1) * 7 <= _MAXORDINAL ->
  let dg := fun n : Z => ascii_of_nat (48 + Z.to_nat (n mod 10)) in
  exists rows,
    dados_csv (criar_grid_vida semanas_vividas expectativa_vida) data_nascimento
    = inr rows /\
    Z.of_nat (length rows) = expectativa_vida * 52 /\
    forall i : nat,
      Z.of_nat i < expectativa_vida * 52 ->
      exists r td t,
        nth_error rows i = Some r /\
        Ano r = Z.of_nat i / 52 + 1 /\
        Semana_do_Ano r = Z.of_nat i mod 52 + 1 /\
        Semana_Absoluta r = Z.of_nat i + 1 /\
        (Status r = vivida <-> Z.of_nat i < semanas_vividas) /\
        (Status r = futura <-> ~ Z.of_nat i < semanas_vividas) /\
        timedelta_weeks (Z.of_nat i) = inr td /\
        datetime_add data_nascimento td = inr t /\
        Data_Aproximada r = strftime_Ymd t /\
        Data_Aproximada r
        = String (dg (year t / 1000)) (String (dg (year t / 100))
            (String (dg (year t / 10)) (String (dg (year t))
              (String "-"%char
                (String (dg (month t / 10)) (String (dg (month t))
                  (String "-"%char
                    (String (dg (day t / 10)) (String (dg (day t))
                       EmptyString))))))))) /\
        year data_nascimento <= year t <= 9999 /\
        valid_datetime t = true /\
        toordinal t = toordinal data_nascimento + Z.of_nat i * 7 /\
        hour t = hour data_nascimento /\ minute t = minute data_nascimento /\
        second t = second data_nascimento /\
        microsecond t = microsecond data_nascimento.
Proof.
  intros Hv He Hmax dg.
  pose proof (toordinal_range data_nascimento Hv) as Rb.
  set (g := fun c => match csv_row data_nascimento c with
                     | inr r => r
                     | inl _ => mkCsvRow 0 0 0 EmptyString EmptyString
                     end).
  assert (Hrow : forall i, 0 <= i < expectativa_vida * 52 ->
            1 <= toordinal data_nascimento
                 + semana_absoluta (cell_at semanas_vividas (i / 52) (i mod 52)) * 7
              <= _MAXORDINAL).
  { intros i Hi. cbn [semana_absoluta cell_at].
    replace (i / 52 * 52 + i mod 52) with i by (Z.div_mod_to_equations; lia).
    lia. }
  exists (map g (cells (criar_grid_vida semanas_vividas expectativa_vida))).
  split; [|split].
  - apply dados_csv_map. intros c Hc. rewrite cells_flat in Hc.
    apply in_map_iff in Hc as [i [<- Hi]]. apply In_range in Hi.
    destruct (csv_row_value data_nascimento _ Hv (Hrow i Hi))
      as [td [t [_ [_ [E _]]]]].
    unfold g. now rewrite E.
  - rewrite length_map. apply cells_length. lia.
  - intros i Hi. rewrite cells_flat, map_map.
    rewrite nth_error_map, nth_error_range by lia. cbn [option_map].
    assert (Hi' : 0 <= Z.of_nat i < expectativa_vida * 52) by lia.
    destruct (csv_row_value data_nascimento _ Hv (Hrow _ Hi'))
      as [td [t [Etd [Et [E Hrest]]]]].
    unfold g. rewrite E. clear E g.
    cbn [semana_absoluta ano semana status cell_at] in *.
    replace (Z.of_nat i / 52 * 52 + Z.of_nat i mod 52) with (Z.of_nat i) in *
      by (Z.div_mod_to_equations; lia).
    exists (mkCsvRow (Z.of_nat i / 52 + 1) (Z.of_nat i mod 52 + 1)
                     (Z.of_nat i + 1)
                     (if Z.of_nat i <? semanas_vividas then vivida else futura)
                     (strftime_Ymd t)), td, t.
    cbn [Ano Semana_do_Ano Semana_Absoluta Status Data_Aproximada].
    split; [reflexivity|]. do 3 (split; [reflexivity|]).
    split; [|split; [|split; [assumption|split; [assumption|split;
      [reflexivity|split; [apply strftime_Ymd_text|split;
        [|exact Hrest]]]]]]].
    + destruct (Z.ltb_spec (Z.of_nat i) semanas_vividas); split; intro;
        try assumption; try reflexivity; try lia.
      exfalso; now apply vivida_neq_futura.
    + destruct (Z.ltb_spec (Z.of_nat i) semanas_vividas); split; intro;
        try assumption; try reflexivity; try lia.
      exfalso; now apply vivida_neq_futura.
    + destruct Hrest as [Hvt [Hot _]]. split.
      * apply toordinal_year_mono; [assumption | assumption | lia].
      * apply valid_datetime_true in Hvt. lia.
Qed.

Lemma C6_csv_rows_witness :
  let dg := fun n : Z => ascii_of_nat (48 + Z.to_nat (n mod 10)) in
  exists rows,
    dados_csv (criar_grid_vida 1774 80) (mk_datetime 1990 1 1 0 0 0 0)
    = inr rows /\
    Z.of_nat (length rows) = 80 * 52 /\
    forall i : nat,
      Z.of_nat i < 80 * 52 ->
      exists r td t,
        nth_error rows i = Some r /\
        Ano r = Z.of_nat i / 52 + 1 /\
        Semana_do_Ano r = Z.of_nat i mod 52 + 1 /\
        Semana_Absoluta r = Z.of_nat i + 1 /\
        (Status r = vivida <-> Z.of_nat i < 1774) /\
        (Status r = futura <-> ~ Z.of_nat i < 1774) /\
        timedelta_weeks (Z.of_nat i) = inr td /\
        datetime_add (mk_datetime 1990 1 1 0 0 0 0) td = inr t /\
        Data_Aproximada r = strftime_Ymd t /\
        Data_Aproximada r
        = String (dg (year t / 1000)) (String (dg (year t / 100))
            (String (dg (year t / 10)) (String (dg (year t))
              (String "-"%char
                (String (dg (month t / 10)) (String (dg (month t))
                  (String "-"%char
                    (String (dg (day t / 10)) (String (dg (day t))
                       EmptyString))))))))) /\
        year (mk_datetime 1990 1 1 0 0 0 0) <= year t <= 9999 /\
        valid_datetime t = true /\
        toordinal t = toordinal (mk_datetime 1990 1 1 0 0 0 0) + Z.of_nat i * 7 /\
        hour t = hour (mk_datetime 1990 1 1 0 0 0 0) /\
        minute t = minute (mk_datetime 1990 1 1 0 0 0 0) /\
        second t = second (mk_datetime 1990 1 1 0 0 0 0) /\
        microsecond t = microsecond (mk_datetime 1990 1 1 0 0 0 0).
Proof.
  apply (C6_csv_rows 1774 80 (mk_datetime 1990 1 1 0 0 0 0)).
  - reflexivity.
  - lia.
  - apply Z.leb_le. vm_compute. reflexivity.
Defined.

Example dados_csv_first_rows :
  option_map (firstn 2)
             (match dados_csv (criar_grid_vida 1 1)
                              (mk_datetime 1990 1 1 0 0 0 0) with
              | inr rows => Some rows
              | inl _ => None
              end)
  = Some [mkCsvRow 1 1 1 vivida "1990-01-01"; mkCsvRow 1 2 2 futura "1990-01-08"].
Proof. vm_compute. reflexivity. Qed.

Example dados_csv_row_1767 :
  option_map (fun rows => nth_error rows 1767)
             (match dados_csv (criar_grid_vida 1774 80)
                              (mk_datetime 1990 1 1 0 0 0 0) with
              | inr rows => Some rows
              | inl _ => None
              end)
  = Some (Some (mkCsvRow 34 52 1768 vivida "2023-11-13")).
Proof. vm_compute. reflexivity. Qed.

(** ** The analysis by decade *)

Lemma range_step_length (stop : Z) :
  Z.of_nat (length (range_step 0 stop 10)) = Z.max 0 ((stop + 9) / 10).
Proof.
  unfold range_step. cbv zeta. rewrite length_map, length_seq.
  destruct (Z.ltb_spec 0 stop); Z.div_mod_to_equations; lia.
Qed.

Lemma nth_error_range_step (stop : Z) (k : nat) :
  Z.of_nat k < Z.max 0 ((stop + 9) / 10) ->
  nth_error (range_step 0 stop 10) k = Some (10 * Z.of_nat k).
Proof.
  intro Hk. rewrite <- range_step_length in Hk.
  unfold range_step in *. cbv zeta in *.
  rewrite length_map, length_seq in Hk.
  rewrite nth_error_map, nth_error_seq.
  destruct (Nat.ltb_spec k (Z.to_nat
             (if 0 <? stop then (stop - 0 - 1) / 10 + 1 else 0))); [|lia].
  reflexivity.
Qed.

Lemma In_range_step (stop i : Z) :
  In i (range_step 0 stop 10) <-> 0 <= i < stop /\ i mod 10 = 0.
Proof.
  unfold range_step. cbv zeta. rewrite in_map_iff. split.
  - intros [k [<- Hk]]. apply in_seq in Hk.
    destruct (Z.ltb_spec 0 stop); Z.div_mod_to_equations; lia.
  - intros [Hi Hm]. exists (Z.to_nat (i / 10)). split.
    + Z.div_mod_to_equations; lia.
    + apply in_seq. destruct (Z.ltb_spec 0 stop);
        Z.div_mod_to_equations; lia.
Qed.

Lemma anos_dados_map (w e : Z) :
  anos_dados w e
  = map (ano_dado w e) (range_step 0 (Z.min e (int_idade_atual w + 10)) 10).
Proof. unfold anos_dados. apply for_append_map. Qed.

Lemma covered_iff (w e y : Z) :
  (exists r, In r (anos_dados w e) /\ covers r y) <->
  0 <= y < e /\ 10 * (y / 10) < int_idade_atual w + 10.
Proof.
  rewrite anos_dados_map. split.
  - intros [r [Hr Hc]]. apply in_map_iff in Hr as [i [<- Hi]].
    apply In_range_step in Hi. unfold covers, ano_dado in Hc.
    cbn [Periodo fst snd] in Hc.
    Z.div_mod_to_equations; lia.
  - intros [Hy Hage]. exists (ano_dado w e (10 * (y / 10))). split.
    + apply in_map, In_range_step. Z.div_mod_to_equations; lia.
    + unfold covers, ano_dado. cbn [Periodo fst snd].
      Z.div_mod_to_equations; lia.
Qed.

Lemma percent_bounds (a b : Z) :
  0 <= a <= b -> 0 < b ->
  (0 <= inject_Z a / inject_Z b * inject_Z 100 <= inject_Z 100)%Q.
Proof.
  intros Ha Hb. destruct b as [|p|p]; try lia.
  unfold Qdiv, inject_Z. change (/ (Z.pos p # 1))%Q with (1 # p)%Q.
  unfold Qle, Qmult. cbn [Qnum Qden]. rewrite ?Pos2Z.inj_mul. lia.
Qed.

(** C5, as the specification states it, fails: at 1,774 weeks lived and an
    expectancy of 80 years no row of the analysis includes year 60. *)
Lemma C5_cover_all_counterexample :
  ~ (forall y, 0 <= y < 80 ->
               exists r, In r (anos_dados 1774 80) /\ covers r y).
Proof.
  intro H. destruct (H 60 ltac:(lia)) as [r [Hr Hc]].
  assert (Hx : exists r, In r (anos_dados 1774 80) /\ covers r 60)
    by (exists r; split; assumption).
  apply covered_iff in Hx. vm_compute in Hx. destruct Hx as [_ Hx].
  discriminate Hx.
Qed.

Lemma ano_dado_fields (w e i : Z) :
  i < e ->
  let r := ano_dado w e i in
  let fim_ano := Z.min (i + 10) e in
  Periodo r = (i, fim_ano - 1) /\
  i < fim_ano <= i + 10 /\
  Semanas_do_Periodo r = (fim_ano - i) * 52 /\
  Semanas_Vividas r
  = Z.max 0 (Z.min (w - i * 52) (Semanas_do_Periodo r)) /\
  0 <= Semanas_Vividas r <= Semanas_do_Periodo r /\
  Progresso r
  = (inject_Z (Semanas_Vividas r) / inject_Z (Semanas_do_Periodo r)
     * inject_Z 100)%Q /\
  (0 <= Progresso r <= inject_Z 100)%Q.
Proof.
  intros Hi r fim_ano. subst r. unfold ano_dado. cbv zeta.
  cbn [Periodo Semanas_do_Periodo Semanas_Vividas Progresso].
  fold fim_ano.
  assert (Hin : i < fim_ano <= i + 10) by (subst fim_ano; lia).
  clearbody fim_ano.
  destruct (Z.ltb_spec 0 ((fim_ano - i) * 52)); [|lia].
  split; [reflexivity|]. split; [exact Hin|]. split; [reflexivity|].
  split; [reflexivity|]. split; [lia|]. split; [reflexivity|].
  apply percent_bounds; lia.
Qed.

(** C5 (amended): with age = int(semanas_vividas / 52), the analysis has one
    row per multiple of 10 below min(expectativa_vida, age + 10): row k is
    the bucket of years 10k to min(10k + 10, expectativa_vida) - 1, never
    empty and at most 10 years long, so the rows are consecutive buckets from
    year 0 and a year y is in some row exactly when 0 <= y < expectativa_vida
    and 10 * (y // 10) < age + 10.  Each row reports the weeks of the bucket
    (its years * 52), the weeks lived in it clamped to [0, weeks of the
    bucket], and the percent 100 * lived / weeks, between 0 and 100. *)
Theorem C5_buckets (semanas_vividas expectativa_vida : Z) :
  let rows := anos_dados semanas_vividas expectativa_vida in
  let limite := Z.min expectativa_vida (int_idade_atual semanas_vividas + 10) in
  Z.of_nat (length rows) = Z.max 0 ((limite + 9) / 10) /\
  (forall y,
      (exists r, In r rows /\ covers r y) <->
      0 <= y < expectativa_vida /\
      10 * (y / 10) < int_idade_atual semanas_vividas + 10) /\
  (forall (k : nat) (r : AnoDado),
      nth_error rows k = Some r ->
      let inicio_ano := 10 * Z.of_nat k in
      let fim_ano := Z.min (inicio_ano + 10) expectativa_vida in
      Periodo r = (inicio_ano, fim_ano - 1) /\
      inicio_ano < fim_ano <= inicio_ano + 10 /\
      Semanas_do_Periodo r = (fim_ano - inicio_ano) * 52 /\
      Semanas_Vividas r
      = Z.max 0 (Z.min (semanas_vividas - inicio_ano * 52)
                       (Semanas_do_Periodo r)) /\
      0 <= Semanas_Vividas r <= Semanas_do_Periodo r /\
      Progresso r
      = (inject_Z (Semanas_Vividas r) / inject_Z (Semanas_do_Periodo r)
         * inject_Z 100)%Q /\
      (0 <= Progresso r <= inject_Z 100)%Q).
Proof.
  intros rows limite. subst rows. split; [|split].
  - rewrite anos_dados_map, length_map. apply range_step_length.
  - intro y. apply covered_iff.
  - intros k r Hk inicio_ano fim_ano.
    assert (Hlen : Z.of_nat k < Z.max 0 ((limite + 9) / 10)).
    { rewrite <- (range_step_length limite).
      assert (Hsome : nth_error (anos_dados semanas_vividas expectativa_vida) k
                      <> None) by (rewrite Hk; discriminate).
      apply nth_error_Some in Hsome.
      rewrite anos_dados_map, length_map in Hsome. fold limite in Hsome. lia. }
    rewrite anos_dados_map, nth_error_map in Hk. fold limite in Hk.
    rewrite (nth_error_range_step limite k Hlen) in Hk.
    cbn [option_map] in Hk. injection Hk as <-.
    assert (Hlt : inicio_ano < expectativa_vida)
      by (subst inicio_ano limite; Z.div_mod_to_equations; lia).
    exact (ano_dado_fields semanas_vividas expectativa_vida inicio_ano Hlt).
Qed.

(** ** More on the grid *)




Lemma firstn_seq_prefix (n a m : nat) :
  firstn n (seq a m) = seq a (Nat.min n m).
Proof.
  revert a m. induction n as [|n IH]; intros a [|m]; try reflexivity.
  cbn [firstn seq Nat.min]. now rewrite IH.
Qed.

(** X2: a row of the grid does not depend on expectativa_vida: for e1 <= e2
    the grid for e1 is the first e1 rows of the grid for e2. *)
Theorem X2_grid_prefix (semanas_vividas e1 e2 : Z) :
  e1 <= e2 ->
  firstn (Z.to_nat e1) (criar_grid_vida semanas_vividas e2)
  = criar_grid_vida semanas_vividas e1.
Proof.
  intro H. rewrite !criar_grid_vida_map, firstn_map. f_equal.
  unfold range. rewrite firstn_map, firstn_seq_prefix. do 2 f_equal. lia.
Qed.

Lemma X2_grid_prefix_witness :
  firstn (Z.to_nat 50) (criar_grid_vida 1774 80) = criar_grid_vida 1774 50.
Proof. apply (X2_grid_prefix 1774 50 80). lia. Defined.

Lemma Forall_map_range {A : Type} (P : A -> Prop) (f : Z -> A) (n : Z) :
  Forall P (map f (range n)) <-> forall k, 0 <= k < n -> P (f k).
Proof.
  rewrite Forall_forall. split.
  - intros H k Hk. apply H, in_map, In_range. exact Hk.
  - intros H x Hx. apply in_map_iff in Hx as [k [<- Hk]].
    apply H, In_range. exact Hk.
Qed.

(** X3: row a of the grid is all "vivida" exactly when (a + 1) * 52 <=
    semanas_vividas and all "futura" exactly when semanas_vividas <= a * 52;
    only the row of index semanas_vividas // 52 can mix the two. *)
Theorem X3_row_all_or_nothing (semanas_vividas expectativa_vida : Z)
        (a : nat) (linha : list Cell) :
  nth_error (criar_grid_vida semanas_vividas expectativa_vida) a = Some linha ->
  (Forall (fun c => status c = vivida) linha
   <-> (Z.of_nat a + 1) * 52 <= semanas_vividas) /\
  (Forall (fun c => status c = futura) linha
   <-> semanas_vividas <= Z.of_nat a * 52) /\
  (Z.of_nat a <> semanas_vividas / 52 ->
   Forall (fun c => status c = vivida) linha \/
   Forall (fun c => status c = futura) linha).
Proof.
  intro Hn.
  assert (Hl : linha = map (cell_at semanas_vividas (Z.of_nat a)) (range 52)).
  { rewrite criar_grid_vida_map in Hn.
    assert (Hlt : (a < length (range expectativa_vida))%nat).
    { rewrite <- (length_map (fun a => map (cell_at semanas_vividas a) (range 52))).
      apply nth_error_Some. now rewrite Hn. }
    rewrite range_length in Hlt.
    rewrite nth_error_map, nth_error_range in Hn by assumption.
    cbn [option_map] in Hn. now injection Hn as <-. }
  subst linha. rewrite !Forall_map_range.
  assert (H1 : (forall k, 0 <= k < 52 ->
                  status (cell_at semanas_vividas (Z.of_nat a) k) = vivida)
               <-> (Z.of_nat a + 1) * 52 <= semanas_vividas).
  { split.
    - intro H. specialize (H 51 ltac:(lia)). apply status_cell_at in H. lia.
    - intros H k Hk. apply status_cell_at. lia. }
  assert (H2 : (forall k, 0 <= k < 52 ->
                  status (cell_at semanas_vividas (Z.of_nat a) k) = futura)
               <-> semanas_vividas <= Z.of_nat a * 52).
  { split.
    - intro H. specialize (H 0 ltac:(lia)). apply status_cell_at_futura in H. lia.
    - intros H k Hk. apply status_cell_at_futura. lia. }
  split; [exact H1|]. split; [exact H2|].
  intro Hne. rewrite H1, H2. Z.div_mod_to_equations. lia.
Qed.

Lemma X3_row_all_or_nothing_witness :
  let linha := map (cell_at 1774 3) (range 52) in
  (Forall (fun c => status c = vivida) linha <-> (Z.of_nat 3 + 1) * 52 <= 1774) /\
  (Forall (fun c => status c = futura) linha <-> 1774 <= Z.of_nat 3 * 52) /\
  (Z.of_nat 3 <> 1774 / 52 ->
   Forall (fun c => status c = vivida) linha \/
   Forall (fun c => status c = futura) linha).
Proof.
  apply (X3_row_all_or_nothing 1774 80 3 (map (cell_at 1774 3) (range 52))).
  vm_compute. reflexivity.
Defined.

Lemma status_prefix (w : Z) (n : nat) :
  map (fun i => status (cell_at w (Z.of_nat i / 52) (Z.of_nat i mod 52)))
      (seq 0 n)
  = repeat vivida (Nat.min n (Z.to_nat w))
    ++ repeat futura (n - Z.to_nat w).
Proof.
  induction n as [|n IH].
  - reflexivity.
  - rewrite seq_S, map_app, IH. cbn [map Nat.add].
    assert (E : status (cell_at w (Z.of_nat n / 52) (Z.of_nat n mod 52))
                = if Z.of_nat n <? w then vivida else futura).
    { unfold cell_at. cbn [status].
      replace (Z.of_nat n / 52 * 52 + Z.of_nat n mod 52) with (Z.of_nat n)
        by (Z.div_mod_to_equations; lia).
      reflexivity. }
    rewrite E. destruct (Z.ltb_spec (Z.of_nat n) w).
    + replace (n - Z.to_nat w)%nat with 0%nat by lia.
      replace (S n - Z.to_nat w)%nat with 0%nat by lia.
      replace (Nat.min n (Z.to_nat w)) with n by lia.
      replace (Nat.min (S n) (Z.to_nat w)) with (S n) by lia.
      cbn [repeat]. rewrite !app_nil_r. now rewrite repeat_cons.
    + replace (Nat.min (S n) (Z.to_nat w)) with (Nat.min n (Z.to_nat w)) by lia.
      replace (S n - Z.to_nat w)%nat with (S (n - Z.to_nat w)) by lia.
      cbn [repeat]. rewrite <- app_assoc. f_equal. now rewrite repeat_cons.
Qed.

(** X4: read row after row, the statuses of the grid are a run of "vivida"
    followed by a run of "futura", with no gap: min(n, k) lived cells then
    n - k future ones, n the number of cells and k = max(semanas_vividas, 0). *)
Theorem X4_lived_cells_are_a_prefix (semanas_vividas expectativa_vida : Z) :
  let n := Z.to_nat (expectativa_vida * 52) in
  let k := Z.to_nat semanas_vividas in
  map status (cells (criar_grid_vida semanas_vividas expectativa_vida))
  = repeat vivida (Nat.min n k) ++ repeat futura (n - k).
Proof.
  intros n k. rewrite cells_flat. unfold range. rewrite !map_map.
  apply status_prefix.
Qed.

Lemma is_status_futura_negb (w a s : Z) :
  is_status futura (cell_at w a s) = negb (is_status vivida (cell_at w a s)).
Proof.
  unfold is_status, cell_at; cbn [status].
  now destruct (a * 52 + s <? w).
Qed.

(** X5: for semanas_vividas >= 0 the "vivida" and "futura" cells together are
    total_semanas, and the "futura" cells number max(0, semanas_restantes):
    the metric semanas_restantes of main counts the future cells of the grid
    exactly when semanas_vividas <= total_semanas. *)
Theorem X5_future_cells_and_remaining (semanas_vividas expectativa_vida : Z) :
  0 <= semanas_vividas -> 0 <= expectativa_vida ->
  let grid := criar_grid_vida semanas_vividas expectativa_vida in
  count_status vivida grid + count_status futura grid
  = total_semanas expectativa_vida /\
  count_status futura grid
  = Z.max 0 (semanas_restantes semanas_vividas expectativa_vida) /\
  (count_status futura grid = semanas_restantes semanas_vividas expectativa_vida
   <-> semanas_vividas <= total_semanas expectativa_vida).
Proof.
  intros Hw He grid. subst grid.
  assert (Hsum : count_status vivida (criar_grid_vida semanas_vividas expectativa_vida)
                 + count_status futura (criar_grid_vida semanas_vividas expectativa_vida)
                 = expectativa_vida * 52).
  { rewrite <- (cells_length semanas_vividas expectativa_vida He).
    unfold count_status.
    rewrite <- (filter_length (is_status vivida)
                  (cells (criar_grid_vida semanas_vividas expectativa_vida))).
    rewrite Nat2Z.inj_add. do 3 f_equal.
    apply filter_ext_in. intros c Hc.
    apply In_cells in Hc as [a [s [_ [_ ->]]]].
    apply is_status_futura_negb. }
  pose proof (count_vivida semanas_vividas expectativa_vida Hw He) as Hv.
  unfold semanas_restantes, total_semanas. lia.
Qed.

Lemma X5_future_cells_and_remaining_witness :
  let grid := criar_grid_vida 5000 80 in
  count_status vivida grid + count_status futura grid = total_semanas 80 /\
  count_status futura grid = Z.max 0 (semanas_restantes 5000 80) /\
  (count_status futura grid = semanas_restantes 5000 80
   <-> 5000 <= total_semanas 80).
Proof. apply (X5_future_cells_and_remaining 5000 80); lia. Defined.

(** ** The heatmap *)

Lemma z_hover_linha_acc (ano_data : list Cell) (zs : list Z) (hs : list string) :
  fold_left
    (fun acc semana_data =>
       if String.eqb (status semana_data) vivida
       then (fst acc ++ [1], snd acc ++ [hover_label semana_data "Vivida"])
       else (fst acc ++ [0], snd acc ++ [hover_label semana_data "Futura"]))
    ano_data (zs, hs)
  = (zs ++ map z_cell ano_data, hs ++ map hover_cell ano_data).
Proof.
  revert zs hs. induction ano_data as [|c l IH]; intros zs hs.
  - cbn. now rewrite !app_nil_r.
  - cbn [fold_left map].
    destruct (String.eqb (status c) vivida) eqn:E; cbn [fst snd];
      rewrite IH, <- !app_assoc; cbn [app]; unfold z_cell, hover_cell;
      rewrite E; reflexivity.
Qed.

Lemma z_hover_linha_map (ano_data : list Cell) :
  z_hover_linha ano_data = (map z_cell ano_data, map hover_cell ano_data).
Proof. unfold z_hover_linha. now rewrite z_hover_linha_acc. Qed.

Lemma z_hover_acc (grid_data : list (list Cell))
      (zs : list (list Z)) (hs : list (list string)) :
  fold_left
    (fun acc ano_data =>
       let linha := z_hover_linha ano_data in
       (fst acc ++ [fst linha], snd acc ++ [snd linha]))
    grid_data (zs, hs)
  = (zs ++ map (map z_cell) grid_data, hs ++ map (map hover_cell) grid_data).
Proof.
  revert zs hs. induction grid_data as [|l g IH]; intros zs hs.
  - cbn. now rewrite !app_nil_r.
  - cbn [fold_left map]. cbv zeta. rewrite z_hover_linha_map. cbn [fst snd].
    rewrite IH, <- !app_assoc. reflexivity.
Qed.

Lemma z_hover_map (grid_data : list (list Cell)) :
  z_hover grid_data
  = (map (map z_cell) grid_data, map (map hover_cell) grid_data).
Proof. unfold z_hover. now rewrite z_hover_acc. Qed.

Lemma sum_Z_app (l1 l2 : list Z) : sum_Z (l1 ++ l2) = sum_Z l1 + sum_Z l2.
Proof.
  induction l1 as [|x l1 IH]; cbn [app sum_Z fold_right].
  - reflexivity.
  - fold (sum_Z (l1 ++ l2)). fold (sum_Z l1). lia.
Qed.

Lemma sum_z_cells (l : list Cell) :
  sum_Z (map z_cell l) = Z.of_nat (length (filter (is_status vivida) l)).
Proof.
  induction l as [|c l IH].
  - reflexivity.
  - cbn [map sum_Z fold_right filter]. fold (sum_Z (map z_cell l)).
    rewrite IH. unfold z_cell, is_status.
    destruct (String.eqb (status c) vivida); cbn [length]; lia.
Qed.

(** X6: for any grid_data, z_data and hover_text have the shape of grid_data
    (row by row the same length), every z is 0 or 1, and the z values add up
    to the number of cells whose status is "vivida"; a cell with any other
    status counts as 0. *)
Theorem X6_heatmap_shape_and_sum (grid_data : list (list Cell)) :
  map (@length Z) (z_data grid_data) = map (@length Cell) grid_data /\
  map (@length string) (hover_text grid_data) = map (@length Cell) grid_data /\
  Forall (Forall (fun z => z = 0 \/ z = 1)) (z_data grid_data) /\
  sum_Z (concat (z_data grid_data)) = count_status vivida grid_data.
Proof.
  unfold z_data, hover_text. rewrite z_hover_map. cbn [fst snd].
  split; [|split; [|split]].
  - rewrite map_map. apply map_ext. intro l. apply length_map.
  - rewrite map_map. apply map_ext. intro l. apply length_map.
  - apply Forall_forall. intros zl Hzl. apply in_map_iff in Hzl as [l [<- _]].
    apply Forall_forall. intros z Hz. apply in_map_iff in Hz as [c [<- _]].
    unfold z_cell. destruct (String.eqb (status c) vivida); auto.
  - unfold count_status, cells. rewrite <- sum_z_cells.
    rewrite concat_map. reflexivity.
Qed.

(** X7: on the grid of criar_grid_vida, the heatmap at row a and column s has
    z = 1 iff a * 52 + s < semanas_vividas, and the hover label
    "Ano {a+1}, Semana {s+1}<br>Status: Vivida" (or "Futura") with 1-based
    numbers. *)
Theorem X7_heatmap_of_grid (semanas_vividas expectativa_vida : Z) (a s : nat) :
  Z.of_nat a < expectativa_vida -> (s < 52)%nat ->
  let grid := criar_grid_vida semanas_vividas expectativa_vida in
  let lived := Z.of_nat a * 52 + Z.of_nat s <? semanas_vividas in
  exists z_linha hover_linha,
    nth_error (z_data grid) a = Some z_linha /\
    nth_error z_linha s = Some (if lived then 1 else 0) /\
    nth_error (hover_text grid) a = Some hover_linha /\
    nth_error hover_linha s
    = Some ("Ano " ++ str (Z.of_nat a + 1) ++ ", Semana "
            ++ str (Z.of_nat s + 1) ++ "<br>Status: "
            ++ (if lived then "Vivida" else "Futura"))%string.
Proof.
  intros Ha Hs grid lived. subst grid.
  destruct (nth_error_grid semanas_vividas expectativa_vida a s)
    as [linha [H1 H2]]; [lia | assumption |].
  unfold z_data, hover_text. rewrite z_hover_map. cbn [fst snd].
  exists (map z_cell linha), (map hover_cell linha).
  rewrite !nth_error_map, H1, H2. cbn [option_map].
  unfold z_cell, hover_cell, hover_label, cell_at. cbn [status ano semana].
  fold lived. destruct lived; repeat split; reflexivity.
Qed.

Lemma X7_heatmap_of_grid_witness :
  let grid := criar_grid_vida 1774 80 in
  let lived := Z.of_nat 34 * 52 + Z.of_nat 5 <? 1774 in
  exists z_linha hover_linha,
    nth_error (z_data grid) 34 = Some z_linha /\
    nth_error z_linha 5 = Some (if lived then 1 else 0) /\
    nth_error (hover_text grid) 34 = Some hover_linha /\
    nth_error hover_linha 5
    = Some ("Ano " ++ str (Z.of_nat 34 + 1) ++ ", Semana "
            ++ str (Z.of_nat 5 + 1) ++ "<br>Status: "
            ++ (if lived then "Vivida" else "Futura"))%string.
Proof. apply (X7_heatmap_of_grid 1774 80 34 5); [reflexivity | lia]. Defined.

Lemma range_step_len_mono (s1 s2 : Z) :
  s1 <= s2 ->
  (length (range_step 0 s1 10) <= length (range_step 0 s2 10))%nat.
Proof.
  intro H. pose proof (range_step_length s1). pose proof (range_step_length s2).
  assert (Z.max 0 ((s1 + 9) / 10) <= Z.max 0 ((s2 + 9) / 10))
    by (Z.div_mod_to_equations; lia).
  lia.
Qed.

Lemma range_step_prefix (s1 s2 : Z) :
  s1 <= s2 ->
  firstn (length (range_step 0 s1 10)) (range_step 0 s2 10) = range_step 0 s1 10.
Proof.
  intro H. pose proof (range_step_len_mono s1 s2 H) as Hl.
  unfold range_step in *. cbv zeta in *.
  rewrite !length_map, !length_seq in Hl.
  rewrite length_map, length_seq, firstn_map, firstn_seq_prefix.
  do 2 f_equal. lia.
Qed.

(** X8: the ticks of the year axis are the multiples of 10 in [0,
    expectativa_vida), ceil(expectativa_vida / 10) of them, one label each;
    every tick is the index of a row of the grid, and the first years of the
    rows of the analysis by decade are the first ticks, in order. *)
Theorem X8_year_ticks (semanas_vividas expectativa_vida : Z) :
  (forall i, In i (yaxis_tickvals expectativa_vida)
             <-> 0 <= i < expectativa_vida /\ i mod 10 = 0) /\
  Z.of_nat (length (yaxis_tickvals expectativa_vida))
  = Z.max 0 ((expectativa_vida + 9) / 10) /\
  length (yaxis_ticktext expectativa_vida)
  = length (yaxis_tickvals expectativa_vida) /\
  (forall i, In i (yaxis_tickvals expectativa_vida) ->
             (Z.to_nat i
              < length (criar_grid_vida semanas_vividas expectativa_vida))%nat) /\
  map (fun r => fst (Periodo r)) (anos_dados semanas_vividas expectativa_vida)
  = firstn (length (anos_dados semanas_vividas expectativa_vida))
           (yaxis_tickvals expectativa_vida).
Proof.
  unfold yaxis_tickvals, yaxis_ticktext. split; [|split; [|split; [|split]]].
  - intro i. apply In_range_step.
  - apply range_step_length.
  - apply length_map.
  - intros i Hi. apply In_range_step in Hi.
    rewrite criar_grid_vida_map, length_map, range_length. lia.
  - rewrite anos_dados_map, length_map, map_map.
    rewrite range_step_prefix by lia.
    rewrite <- (map_id (range_step 0 _ 10)) at 2.
    apply map_ext. intro i. reflexivity.
Qed.

(** ** More on the analysis by decade *)

Lemma sum_vividas_prefix (w e : Z) (m : nat) :
  0 <= w -> 0 <= e -> 10 * Z.of_nat m < e + 10 ->
  sum_Z (map (fun k => Semanas_Vividas (ano_dado w e (0 + 10 * Z.of_nat k)))
             (seq 0 m))
  = Z.min w (52 * Z.min (10 * Z.of_nat m) e).
Proof.
  intros Hw He. induction m as [|m IH]; intro Hm.
  - cbn [seq map sum_Z fold_right]. lia.
  - rewrite seq_S, map_app, sum_Z_app, IH by lia.
    cbn [map sum_Z fold_right Nat.add]. unfold ano_dado. cbv zeta.
    cbn [Semanas_Vividas]. lia.
Qed.

Lemma int_idade_atual_bounds (w : Z) :
  0 <= w -> 52 * int_idade_atual w <= w < 52 * (int_idade_atual w + 1).
Proof.
  intro Hw. unfold int_idade_atual. rewrite Z.quot_div_nonneg by lia.
  Z.div_mod_to_equations; lia.
Qed.

(** X9: for semanas_vividas >= 0 and expectativa_vida >= 0 the column
    'Semanas Vividas' of the analysis by decade adds up to min(semanas_vividas,
    total_semanas), the number of "vivida" cells of the grid: the cut of the
    table after the current decade loses no lived week. *)
Theorem X9_bars_sum_to_lived_cells (semanas_vividas expectativa_vida : Z) :
  0 <= semanas_vividas -> 0 <= expectativa_vida ->
  sum_Z (map Semanas_Vividas (anos_dados semanas_vividas expectativa_vida))
  = Z.min semanas_vividas (total_semanas expectativa_vida) /\
  sum_Z (map Semanas_Vividas (anos_dados semanas_vividas expectativa_vida))
  = count_status vivida (criar_grid_vida semanas_vividas expectativa_vida).
Proof.
  intros Hw He.
  assert (Hs : sum_Z (map Semanas_Vividas
                          (anos_dados semanas_vividas expectativa_vida))
               = Z.min semanas_vividas (expectativa_vida * 52)).
  { rewrite anos_dados_map, map_map.
    set (limite := Z.min expectativa_vida (int_idade_atual semanas_vividas + 10)).
    pose proof (range_step_length limite) as Hlen.
    pose proof (int_idade_atual_bounds semanas_vividas Hw) as Hage.
    unfold range_step in *. cbv zeta in *.
    rewrite length_map, length_seq in Hlen. rewrite map_map.
    set (m := Z.to_nat (if 0 <? limite then (limite - 0 - 1) / 10 + 1 else 0)) in *.
    assert (Hm : Z.of_nat m = Z.max 0 ((limite + 9) / 10)) by exact Hlen.
    rewrite sum_vividas_prefix.
    - subst limite. clearbody m. Z.div_mod_to_equations. lia.
    - assumption.
    - assumption.
    - subst limite. clearbody m. Z.div_mod_to_equations. lia. }
  split.
  - unfold total_semanas. exact Hs.
  - rewrite count_vivida by assumption. exact Hs.
Qed.

Lemma X9_bars_sum_to_lived_cells_witness :
  sum_Z (map Semanas_Vividas (anos_dados 1774 80))
  = Z.min 1774 (total_semanas 80) /\
  sum_Z (map Semanas_Vividas (anos_dados 1774 80))
  = count_status vivida (criar_grid_vida 1774 80).
Proof. apply (X9_bars_sum_to_lived_cells 1774 80); lia. Defined.

(** X10: the analysis by decade is empty exactly when expectativa_vida <= 0
    or int(idade_atual) <= -10; whenever expectativa_vida > 0 and
    semanas_vividas > -520 it has a first row, for the years 0 to
    min(10, expectativa_vida) - 1. *)
Theorem X10_analysis_empty_or_from_zero (semanas_vividas expectativa_vida : Z) :
  (anos_dados semanas_vividas expectativa_vida = []
   <-> expectativa_vida <= 0 \/ int_idade_atual semanas_vividas <= -10) /\
  (0 < expectativa_vida -> -520 < semanas_vividas ->
   exists r rest,
     anos_dados semanas_vividas expectativa_vida = r :: rest /\
     Periodo r = (0, Z.min 10 expectativa_vida - 1)).
Proof.
  split.
  - rewrite anos_dados_map.
    set (limite := Z.min expectativa_vida (int_idade_atual semanas_vividas + 10)).
    pose proof (range_step_length limite) as Hlen.
    destruct (range_step 0 limite 10) as [|i l] eqn:E.
    + cbn [map length] in *. split; [intros _|reflexivity].
      subst limite. Z.div_mod_to_equations. lia.
    + cbn [map length] in *. split; [discriminate|]. intro H. exfalso.
      subst limite. Z.div_mod_to_equations. lia.
  - intros He Hw. rewrite anos_dados_map.
    set (limite := Z.min expectativa_vida (int_idade_atual semanas_vividas + 10)).
    assert (Hage : -10 < int_idade_atual semanas_vividas).
    { unfold int_idade_atual. Z.to_euclidean_division_equations. lia. }
    pose proof (nth_error_range_step limite 0) as H0.
    destruct (range_step 0 limite 10) as [|i l].
    + exfalso. cbn in H0. assert (Some 0 = @None Z); [|discriminate].
      symmetry. apply H0. subst limite. Z.div_mod_to_equations. lia.
    + cbn [nth_error] in H0.
      assert (Hi : Some i = Some (10 * Z.of_nat 0))
        by (apply H0; subst limite; Z.div_mod_to_equations; lia).
      injection Hi as ->. cbn [map]. eexists. eexists. split; [reflexivity|].
      reflexivity.
Qed.

Lemma nth_error_anos_dados (w e : Z) (k : nat) (r : AnoDado) :
  nth_error (anos_dados w e) k = Some r ->
  r = ano_dado w e (10 * Z.of_nat k) /\ 10 * Z.of_nat k < e /\
  10 * Z.of_nat k < int_idade_atual w + 10.
Proof.
  intro Hk. rewrite anos_dados_map in Hk.
  set (limite := Z.min e (int_idade_atual w + 10)) in *.
  assert (Hlen : Z.of_nat k < Z.max 0 ((limite + 9) / 10)).
  { rewrite <- (range_step_length limite).
    assert (Hsome : nth_error (map (ano_dado w e) (range_step 0 limite 10)) k
                    <> None) by (rewrite Hk; discriminate).
    apply nth_error_Some in Hsome. rewrite length_map in Hsome. lia. }
  rewrite nth_error_map, (nth_error_range_step limite k Hlen) in Hk.
  cbn [option_map] in Hk. injection Hk as <-.
  split; [reflexivity|]. subst limite. Z.div_mod_to_equations. lia.
Qed.

(** X11: in row k of the analysis by decade, when all the weeks of the bucket
    are behind (Semanas do Periodo <= semanas_vividas - 520 k) the weeks lived
    are the weeks of the bucket and the percent is 100; when semanas_vividas <=
    520 k both are 0; and a bucket that ends at or before expectativa_vida has
    520 weeks. *)
Theorem X11_decades_lived_or_ahead (semanas_vividas expectativa_vida : Z)
        (k : nat) (r : AnoDado) :
  nth_error (anos_dados semanas_vividas expectativa_vida) k = Some r ->
  (Semanas_do_Periodo r <= semanas_vividas - 520 * Z.of_nat k ->
   Semanas_Vividas r = Semanas_do_Periodo r /\
   (Progresso r == inject_Z 100)%Q) /\
  (semanas_vividas <= 520 * Z.of_nat k ->
   Semanas_Vividas r = 0 /\ (Progresso r == 0)%Q) /\
  (10 * Z.of_nat k + 10 <= expectativa_vida -> Semanas_do_Periodo r = 520).
Proof.
  intro Hk. apply nth_error_anos_dados in Hk as [-> [Hlt _]].
  pose proof (ano_dado_fields semanas_vividas expectativa_vida
                              (10 * Z.of_nat k) Hlt) as H.
  cbv zeta in H. destruct H as [_ [Hf [Hs [Hv [Hb [Hp _]]]]]].
  set (r := ano_dado semanas_vividas expectativa_vida (10 * Z.of_nat k)) in *.
  clearbody r. split; [|split].
  - intro H. assert (E : Semanas_Vividas r = Semanas_do_Periodo r) by lia.
    split; [exact E|]. rewrite Hp, E.
    assert (Hpos : 0 < Semanas_do_Periodo r) by lia.
    destruct (Semanas_do_Periodo r) as [|p|p]; try lia.
    unfold Qeq, Qdiv, Qmult, inject_Z.
    change (/ (Z.pos p # 1))%Q with (1 # p)%Q. cbn [Qnum Qden].
    rewrite ?Pos2Z.inj_mul. lia.
  - intro H. assert (E : Semanas_Vividas r = 0) by lia.
    split; [exact E|]. rewrite Hp, E.
    assert (Hpos : 0 < Semanas_do_Periodo r) by lia.
    destruct (Semanas_do_Periodo r) as [|p|p]; try lia.
    unfold Qeq, Qdiv, Qmult, inject_Z.
    change (/ (Z.pos p # 1))%Q with (1 # p)%Q. cbn [Qnum Qden]. lia.
  - intro H. lia.
Qed.

Lemma X11_decades_lived_or_ahead_witness :
  let r := ano_dado 1774 80 20 in
  (Semanas_do_Periodo r <= 1774 - 520 * Z.of_nat 2 ->
   Semanas_Vividas r = Semanas_do_Periodo r /\
   (Progresso r == inject_Z 100)%Q) /\
  (1774 <= 520 * Z.of_nat 2 ->
   Semanas_Vividas r = 0 /\ (Progresso r == 0)%Q) /\
  (10 * Z.of_nat 2 + 10 <= 80 -> Semanas_do_Periodo r = 520).
Proof.
  apply (X11_decades_lived_or_ahead 1774 80 2 (ano_dado 1774 80 20)).
  vm_compute. reflexivity.
Defined.

(** X12: for expectativa_vida >= 1 the analysis by decade includes every
    year below expectativa_vida, equivalently has ceil(expectativa_vida / 10)
    rows, exactly when the last decade starts before int(idade_atual) + 10. *)
Theorem X12_complete_analysis (semanas_vividas expectativa_vida : Z) :
  1 <= expectativa_vida ->
  ((forall y, 0 <= y < expectativa_vida ->
              exists r, In r (anos_dados semanas_vividas expectativa_vida)
                        /\ covers r y)
   <-> 10 * ((expectativa_vida - 1) / 10) < int_idade_atual semanas_vividas + 10) /\
  (Z.of_nat (length (anos_dados semanas_vividas expectativa_vida))
   = (expectativa_vida + 9) / 10
   <-> 10 * ((expectativa_vida - 1) / 10) < int_idade_atual semanas_vividas + 10).
Proof.
  intro He. split.
  - split.
    + intro H. destruct (H (expectativa_vida - 1) ltac:(lia)) as [r Hr].
      assert (Hx : exists r, In r (anos_dados semanas_vividas expectativa_vida)
                             /\ covers r (expectativa_vida - 1))
        by (exists r; exact Hr).
      apply covered_iff in Hx. lia.
    + intros H y Hy. apply covered_iff. split; [lia|].
      Z.div_mod_to_equations. lia.
  - rewrite anos_dados_map, length_map, range_step_length.
    Z.div_mod_to_equations. lia.
Qed.

Lemma X12_complete_analysis_witness :
  ((forall y, 0 <= y < 80 ->
              exists r, In r (anos_dados 3900 80) /\ covers r y)
   <-> 10 * ((80 - 1) / 10) < int_idade_atual 3900 + 10) /\
  (Z.of_nat (length (anos_dados 3900 80)) = (80 + 9) / 10
   <-> 10 * ((80 - 1) / 10) < int_idade_atual 3900 + 10).
Proof. apply (X12_complete_analysis 3900 80). lia. Defined.

(** ** More on the week counter *)

(** X13: on valid datetimes calcular_semanas_vividas returns n exactly when
    the elapsed time from birthDate to referenceDate is at least n and less
    than n + 1 times seven days, for negative n as well. *)
Theorem X13_week_number_interval (now birthDate referenceDate : datetime) (n : Z) :
  valid_datetime birthDate = true ->
  valid_datetime referenceDate = true ->
  (calcular_semanas_vividas now birthDate (Some referenceDate) = inr n
   <-> n * (7 * us_per_day) <= to_us referenceDate - to_us birthDate
       < (n + 1) * (7 * us_per_day)).
Proof.
  intros Hb Hr.
  destruct (calcular_semanas_vividas_value now birthDate referenceDate Hb Hr)
    as [E _].
  rewrite E. unfold daysBetween, us_per_day. split.
  - intro H. injection H as <-. Z.div_mod_to_equations. lia.
  - intro H. f_equal. Z.div_mod_to_equations. lia.
Qed.

Lemma X13_week_number_interval_witness :
  let now := mk_datetime 2024 1 1 0 0 0 0 in
  let birthDate := mk_datetime 1990 1 1 0 0 0 0 in
  let referenceDate := mk_datetime 2024 1 1 9 30 0 0 in
  calcular_semanas_vividas now birthDate (Some referenceDate) = inr 1774
  <-> 1774 * (7 * us_per_day) <= to_us referenceDate - to_us birthDate
      < (1774 + 1) * (7 * us_per_day).
Proof.
  apply (X13_week_number_interval (mk_datetime 2024 1 1 0 0 0 0)
           (mk_datetime 1990 1 1 0 0 0 0) (mk_datetime 2024 1 1 9 30 0 0) 1774);
    reflexivity.
Defined.

(** X14: swapping the two dates does not just negate the result: if
    calcular_semanas_vividas(a, b) = n then calcular_semanas_vividas(b, a) is
    -n when the elapsed time is a whole number of weeks and -n - 1
    otherwise. *)
Theorem X14_swapped_arguments (now a b : datetime) :
  valid_datetime a = true -> valid_datetime b = true ->
  exists n m,
    calcular_semanas_vividas now a (Some b) = inr n /\
    calcular_semanas_vividas now b (Some a) = inr m /\
    (m = - n \/ m = - n - 1) /\
    (m = - n <-> (to_us b - to_us a) mod (7 * us_per_day) = 0).
Proof.
  intros Ha Hb.
  destruct (calcular_semanas_vividas_value now a b Ha Hb) as [E1 _].
  destruct (calcular_semanas_vividas_value now b a Hb Ha) as [E2 _].
  exists (daysBetween a b / 7), (daysBetween b a / 7).
  split; [exact E1|]. split; [exact E2|].
  unfold daysBetween, us_per_day.
  set (T := to_us b - to_us a).
  replace (to_us a - to_us b) with (- T) by (unfold T; lia).
  clearbody T. split; [|split]; Z.div_mod_to_equations; lia.
Qed.

Lemma X14_swapped_arguments_witness :
  let now := mk_datetime 2024 1 1 0 0 0 0 in
  let a := mk_datetime 1990 1 1 0 0 0 0 in
  let b := mk_datetime 2024 1 3 0 0 0 0 in
  exists n m,
    calcular_semanas_vividas now a (Some b) = inr n /\
    calcular_semanas_vividas now b (Some a) = inr m /\
    (m = - n \/ m = - n - 1) /\
    (m = - n <-> (to_us b - to_us a) mod (7 * us_per_day) = 0).
Proof.
  apply (X14_swapped_arguments (mk_datetime 2024 1 1 0 0 0 0)
           (mk_datetime 1990 1 1 0 0 0 0) (mk_datetime 2024 1 3 0 0 0 0));
    reflexivity.
Defined.

Lemma to_us_shift (t t' : datetime) (k : Z) :
  toordinal t' = toordinal t + k * 7 ->
  hour t' = hour t -> minute t' = minute t -> second t' = second t ->
  microsecond t' = microsecond t ->
  to_us t' = to_us t + k * (7 * us_per_day).
Proof.
  intros Ho Hh Hm Hs Hu. unfold to_us, us_per_day.
  rewrite Ho, Hh, Hm, Hs, Hu. lia.
Qed.

(** X15: moving the reference date by timedelta(weeks=k) moves the result by
    exactly k, as long as the new date exists in the calendar of datetime. *)
Theorem X15_weeks_later (now birthDate referenceDate : datetime) (k : Z) :
  valid_datetime birthDate = true ->
  valid_datetime referenceDate = true ->
  1 <= toordinal referenceDate + k * 7 <= _MAXORDINAL ->
  exists td later n,
    timedelta_weeks k = inr td /\
    datetime_add referenceDate td = inr later /\
    calcular_semanas_vividas now birthDate (Some referenceDate) = inr n /\
    calcular_semanas_vividas now birthDate (Some later) = inr (n + k).
Proof.
  intros Hb Hr Hk.
  destruct (datetime_add_weeks referenceDate k Hr Hk)
    as [td [later [Etd [Eadd [Hv [Ho [Hh [Hm [Hs Hu]]]]]]]]].
  destruct (calcular_semanas_vividas_value now birthDate referenceDate Hb Hr)
    as [E1 _].
  destruct (calcular_semanas_vividas_value now birthDate later Hb Hv)
    as [E2 _].
  exists td, later, (daysBetween birthDate referenceDate / 7).
  split; [exact Etd|]. split; [exact Eadd|]. split; [exact E1|].
  rewrite E2. f_equal. unfold daysBetween.
  rewrite (to_us_shift referenceDate later k Ho Hh Hm Hs Hu).
  unfold us_per_day. Z.div_mod_to_equations. lia.
Qed.

Lemma X15_weeks_later_witness :
  let now := mk_datetime 2024 1 1 0 0 0 0 in
  let birthDate := mk_datetime 1990 1 1 0 0 0 0 in
  let referenceDate := mk_datetime 2024 1 3 8 0 0 0 in
  exists td later n,
    timedelta_weeks 10 = inr td /\
    datetime_add referenceDate td = inr later /\
    calcular_semanas_vividas now birthDate (Some referenceDate) = inr n /\
    calcular_semanas_vividas now birthDate (Some later) = inr (n + 10).
Proof.
  apply (X15_weeks_later (mk_datetime 2024 1 1 0 0 0 0)
           (mk_datetime 1990 1 1 0 0 0 0) (mk_datetime 2024 1 3 8 0 0 0) 10).
  - reflexivity.
  - reflexivity.
  - split; [apply Z.leb_le | apply Z.leb_le]; vm_compute; reflexivity.
Defined.

Lemma date_cmp_ordinal (a b : date) :
  _check_date_fields (date_year a) (date_month a) (date_day a) = true ->
  _check_date_fields (date_year b) (date_month b) (date_day b) = true ->
  date_cmp a b
  = (_ymd2ord (date_year a) (date_month a) (date_day a)
     ?= _ymd2ord (date_year b) (date_month b) (date_day b)).
Proof.
  intros Ha Hb.
  pose proof (datetime_cmp_to_us (main_data_nascimento a) (main_data_nascimento b))
    as H.
  destruct (main_data_nascimento_valid a Ha) as [Va Ua].
  destruct (main_data_nascimento_valid b Hb) as [Vb Ub].
  specialize (H Va Vb). rewrite Ua, Ub in H.
  unfold date_cmp.
  unfold datetime_cmp, datetime_fields, main_data_nascimento, datetime_combine,
    time_min in H.
  cbn [year month day hour minute second microsecond
       time_hour time_minute time_second time_microsecond _cmp] in H.
  cbn [_cmp].
  assert (Hc : forall x y, (x * us_per_day ?= y * us_per_day) = (x ?= y)).
  { intros x y. unfold us_per_day.
    destruct (Z.compare_spec x y);
      [subst; apply Z.compare_refl | apply Z.compare_lt_iff; lia
       | apply Z.compare_gt_iff; lia]. }
  rewrite Hc in H. rewrite <- H.
  destruct (date_year a ?= date_year b); [|reflexivity..].
  destruct (date_month a ?= date_month b); [|reflexivity..].
  destruct (date_day a ?= date_day b); reflexivity.
Qed.

(** X16: in main, where the birth date is taken at midnight, the weeks lived
    are (today's ordinal - the birth date's ordinal) // 7 whatever the time of
    day of the clock, and they are >= 0 exactly when the birth date is not
    after today's date, which is what max_value of the date input enforces. *)
Theorem X16_main_weeks_from_dates (now : datetime) (d : date) :
  _check_date_fields (date_year d) (date_month d) (date_day d) = true ->
  valid_datetime now = true ->
  let elapsed := toordinal now
                 - _ymd2ord (date_year d) (date_month d) (date_day d) in
  main_semanas_vividas now d = inr (elapsed / 7) /\
  (date_cmp d (datetime_date now) <> Gt <-> 0 <= elapsed / 7).
Proof.
  intros Hd Hn elapsed.
  destruct (main_data_nascimento_valid d Hd) as [Vd Ud].
  destruct (calcular_semanas_vividas_value now (main_data_nascimento d) now Vd Hn)
    as [E _].
  pose proof (to_us_day_bounds now Hn) as Bn.
  assert (Hdays : daysBetween (main_data_nascimento d) now = elapsed).
  { unfold daysBetween. rewrite Ud. subst elapsed.
    unfold us_per_day in *. Z.div_mod_to_equations. lia. }
  split.
  - unfold main_semanas_vividas, calcular_semanas_vividas in *.
    rewrite <- Hdays. exact E.
  - rewrite date_cmp_ordinal.
    + cbn [datetime_date date_year date_month date_day]. fold (toordinal now).
      rewrite Z.compare_gt_iff. subst elapsed. Z.div_mod_to_equations. lia.
    + exact Hd.
    + cbn [datetime_date date_year date_month date_day].
      unfold valid_datetime in Hn. now apply andb_true_iff in Hn as [Hn _].
Qed.

Lemma X16_main_weeks_from_dates_witness :
  let now := mk_datetime 2024 1 1 17 45 12 500 in
  let d := mk_date 1990 1 1 in
  let elapsed := toordinal now
                 - _ymd2ord (date_year d) (date_month d) (date_day d) in
  main_semanas_vividas now d = inr (elapsed / 7) /\
  (date_cmp d (datetime_date now) <> Gt <-> 0 <= elapsed / 7).
Proof.
  apply (X16_main_weeks_from_dates (mk_datetime 2024 1 1 17 45 12 500)
                                   (mk_date 1990 1 1)); reflexivity.
Defined.

(** ** More on the CSV export *)

Lemma for_append_py_raised {A B : Type} (f : A -> Py B) (xs : list A) (e : exn) :
  fold_left (fun macc x => acc' <- macc ;; y <- f x ;; ret (acc' ++ [y]))
            xs (inl e) = inl e.
Proof. induction xs as [|x xs IH]; [reflexivity | exact IH]. Qed.

Lemma for_append_py_app {A B : Type} (f : A -> Py B) (xs ys : list A)
      (acc : list B) :
  for_append_py (xs ++ ys) f acc
  = (acc' <- for_append_py xs f acc ;; for_append_py ys f acc').
Proof.
  unfold for_append_py. rewrite fold_left_app.
  destruct (fold_left _ xs (ret acc)) as [e|acc'].
  - cbn [bind]. apply for_append_py_raised.
  - reflexivity.
Qed.

Lemma dados_csv_flat_acc (grid : list (list Cell)) (b : datetime)
      (acc : list CsvRow) :
  fold_left (fun macc linha =>
               acc <- macc ;; for_append_py linha (csv_row b) acc)
            grid (ret acc)
  = for_append_py (concat grid) (csv_row b) acc.
Proof.
  revert acc. induction grid as [|linha grid IH]; intro acc.
  - reflexivity.
  - cbn [fold_left concat bind ret]. rewrite for_append_py_app.
    destruct (for_append_py linha (csv_row b) acc) as [e|acc'].
    + cbn [bind]. clear IH. induction grid as [|l g IHg]; [reflexivity|exact IHg].
    + cbn [bind]. apply IH.
Qed.

Lemma dados_csv_flat (grid : list (list Cell)) (b : datetime) :
  dados_csv grid b = for_append_py (cells grid) (csv_row b) [].
Proof. unfold dados_csv, cells. apply dados_csv_flat_acc. Qed.

Lemma for_append_py_cons {A B : Type} (f : A -> Py B) (x : A) (xs : list A)
      (acc : list B) :
  for_append_py (x :: xs) f acc
  = (y <- f x ;; for_append_py xs f (acc ++ [y])).
Proof.
  unfold for_append_py. cbn [fold_left bind ret].
  destruct (f x) as [e|y]; cbn [bind].
  - apply for_append_py_raised.
  - reflexivity.
Qed.

Lemma for_append_py_inv {A B : Type} (f : A -> Py B) (xs : list A)
      (acc out : list B) :
  for_append_py xs f acc = inr out ->
  exists ys, out = acc ++ ys /\ Forall2 (fun x y => f x = inr y) xs ys.
Proof.
  revert acc. induction xs as [|x xs IH]; intros acc H.
  - cbn in H. injection H as <-. exists []. now rewrite app_nil_r.
  - rewrite for_append_py_cons in H. destruct (f x) as [e|y] eqn:E;
      [discriminate|]. cbn [bind] in H.
    destruct (IH _ H) as [ys [-> HF]]. exists (y :: ys). split.
    + now rewrite <- app_assoc.
    + now constructor.
Qed.

Lemma for_append_py_first_error {A B : Type} (f : A -> Py B) (e : exn)
      (xs : list A) (acc : list B) :
  (forall x, In x xs -> (exists y, f x = inr y) \/ f x = inl e) ->
  (exists x, In x xs /\ f x = inl e) ->
  for_append_py xs f acc = inl e.
Proof.
  revert acc. induction xs as [|x xs IH]; intros acc Hall [x0 [Hin Hx0]].
  - destruct Hin.
  - rewrite for_append_py_cons.
    destruct (Hall x (or_introl eq_refl)) as [[y Hy]|He].
    + rewrite Hy. cbn [bind]. apply IH.
      * intros z Hz. apply Hall. now right.
      * destruct Hin as [<-|Hin]; [congruence|]. now exists x0.
    + now rewrite He.
Qed.

Lemma csv_row_inv (b : datetime) (c : Cell) (r : CsvRow) :
  csv_row b c = inr r ->
  Ano r = ano c + 1 /\ Semana_do_Ano r = semana c + 1 /\
  Semana_Absoluta r = semana_absoluta c + 1 /\ Status r = status c /\
  exists td t,
    timedelta_weeks (semana_absoluta c) = inr td /\
    datetime_add b td = inr t /\
    Data_Aproximada r = strftime_Ymd t.
Proof.
  unfold csv_row.
  destruct (timedelta_weeks (semana_absoluta c)) as [e|td] eqn:Etd;
    [discriminate|]. cbn [bind].
  destruct (datetime_add b td) as [e|t] eqn:Et; [discriminate|]. cbn [bind ret].
  intro H. injection H as <-.
  cbn [Ano Semana_do_Ano Semana_Absoluta Status Data_Aproximada].
  do 4 (split; [reflexivity|]).
  exists td, t. split; [reflexivity|]. split; [exact Et | reflexivity].
Qed.

(** X17: for any grid_data, when the export returns rows there is one row
    per cell in the order of the grid, with Ano, Semana_do_Ano and
    Semana_Absoluta the cell's ano, semana and semana_absoluta plus 1 and
    Status the cell's status unchanged. *)
Theorem X17_export_mirrors_grid (grid_data : list (list Cell))
        (data_nascimento : datetime) (rows : list CsvRow) :
  dados_csv grid_data data_nascimento = inr rows ->
  length rows = length (cells grid_data) /\
  map Ano rows = map (fun c => ano c + 1) (cells grid_data) /\
  map Semana_do_Ano rows = map (fun c => semana c + 1) (cells grid_data) /\
  map Semana_Absoluta rows
  = map (fun c => semana_absoluta c + 1) (cells grid_data) /\
  map Status rows = map status (cells grid_data).
Proof.
  rewrite dados_csv_flat. intro H.
  apply for_append_py_inv in H as [ys [-> HF]]. cbn [app].
  induction HF as [|c r cs rs Hr HF IH].
  - repeat split.
  - apply csv_row_inv in Hr as [H1 [H2 [H3 [H4 _]]]].
    destruct IH as [I0 [I1 [I2 [I3 I4]]]].
    cbn [map length]. rewrite H1, H2, H3, H4, I0, I1, I2, I3, I4.
    repeat split.
Qed.

Lemma X17_export_mirrors_grid_witness :
  let grid_data := [[mkCell 0 0 0 vivida; mkCell 0 1 1 futura]] in
  let rows := [mkCsvRow 1 1 1 vivida "1990-01-01";
               mkCsvRow 1 2 2 futura "1990-01-08"] in
  length rows = length (cells grid_data) /\
  map Ano rows = map (fun c => ano c + 1) (cells grid_data) /\
  map Semana_do_Ano rows = map (fun c => semana c + 1) (cells grid_data) /\
  map Semana_Absoluta rows
  = map (fun c => semana_absoluta c + 1) (cells grid_data) /\
  map Status rows = map status (cells grid_data).
Proof.
  apply (X17_export_mirrors_grid
           [[mkCell 0 0 0 vivida; mkCell 0 1 1 futura]]
           (mk_datetime 1990 1 1 0 0 0 0)).
  vm_compute. reflexivity.
Defined.

Lemma ymd2ord_inj (y1 m1 d1 y2 m2 d2 : Z) :
  _check_date_fields y1 m1 d1 = true ->
  _check_date_fields y2 m2 d2 = true ->
  _ymd2ord y1 m1 d1 = _ymd2ord y2 m2 d2 ->
  y1 = y2 /\ m1 = m2 /\ d1 = d2.
Proof.
  intros H1 H2 E.
  apply check_date_fields_true in H1 as [Hy1 [Hm1 Hd1]].
  apply check_date_fields_true in H2 as [Hy2 [Hm2 Hd2]].
  assert (Hy : y1 = y2).
  { destruct (Z.lt_trichotomy y1 y2) as [H|[H|H]]; [|exact H|].
    - pose proof (ymd2ord_lt_year y1 m1 d1 y2 m2 d2). lia.
    - pose proof (ymd2ord_lt_year y2 m2 d2 y1 m1 d1). lia. }
  subst y2.
  assert (Hm : m1 = m2).
  { destruct (Z.lt_trichotomy m1 m2) as [H|[H|H]]; [|exact H|].
    - pose proof (ymd2ord_lt_month y1 m1 d1 m2 d2). lia.
    - pose proof (ymd2ord_lt_month y1 m2 d2 m1 d1). lia. }
  subst m2. unfold _ymd2ord in E. repeat split. lia.
Qed.

Lemma ord2ymd_ymd2ord (y m d : Z) :
  _check_date_fields y m d = true ->
  _ord2ymd (_ymd2ord y m d) = (y, m, d).
Proof.
  intro H. pose proof (ymd2ord_range y m d H) as Hr.
  pose proof (ord2ymd_check (_ymd2ord y m d) Hr) as Ho.
  destruct (_ord2ymd (_ymd2ord y m d)) as [[y' m'] d'].
  destruct Ho as [Hc Ho].
  destruct (ymd2ord_inj y' m' d' y m d Hc H Ho) as [-> [-> ->]].
  reflexivity.
Qed.

Lemma datetime_add_zero (t : datetime) :
  valid_datetime t = true ->
  exists td, timedelta_weeks 0 = inr td /\ datetime_add t td = inr t.
Proof.
  intro Hv. pose proof (toordinal_range t Hv) as Hr.
  destruct (datetime_add_weeks t 0 Hv ltac:(lia))
    as [td [t' [Etd [Eadd [Hv' [Ho [Hh [Hm [Hs Hu]]]]]]]]].
  exists td. split; [exact Etd|]. rewrite Eadd. f_equal.
  unfold valid_datetime in Hv, Hv'.
  apply andb_true_iff in Hv as [Hd _]. apply andb_true_iff in Hv' as [Hd' _].
  unfold toordinal in Ho. rewrite Z.add_0_r in Ho.
  destruct (ymd2ord_inj _ _ _ _ _ _ Hd' Hd Ho) as [Ey [Em Ed]].
  destruct t, t'. cbn in *. congruence.
Qed.

(** X18: when the export of a grid of criar_grid_vida with expectativa_vida
    >= 1 returns rows, the first row is year 1, week 1, absolute week 1 and
    its Data_Aproximada is the birth date itself: the four digits of the
    birth year, "-", the two digits of its month, "-", the two digits of its
    day. *)
Theorem X18_first_row_is_birth_date (semanas_vividas expectativa_vida : Z)
        (data_nascimento : datetime) (rows : list CsvRow) :
  valid_datetime data_nascimento = true ->
  1 <= expectativa_vida ->
  dados_csv (criar_grid_vida semanas_vividas expectativa_vida) data_nascimento
  = inr rows ->
  let dg := fun n : Z => ascii_of_nat (48 + Z.to_nat (n mod 10)) in
  exists r rest,
    rows = r :: rest /\
    Ano r = 1 /\ Semana_do_Ano r = 1 /\ Semana_Absoluta r = 1 /\
    Data_Aproximada r = strftime_Ymd data_nascimento /\
    Data_Aproximada r
    = String (dg (year data_nascimento / 1000)) (String (dg (year data_nascimento / 100))
        (String (dg (year data_nascimento / 10)) (String (dg (year data_nascimento))
          (String "-"%char
            (String (dg (month data_nascimento / 10)) (String (dg (month data_nascimento))
              (String "-"%char
                (String (dg (day data_nascimento / 10)) (String (dg (day data_nascimento))
                   EmptyString))))))))).
Proof.
  intros Hv He H dg. rewrite dados_csv_flat, cells_flat in H.
  assert (Hr : range (expectativa_vida * 52)
               = 0 :: map Z.of_nat (seq 1 (Z.to_nat (expectativa_vida * 52) - 1))).
  { unfold range.
    replace (Z.to_nat (expectativa_vida * 52))
      with (S (Z.to_nat (expectativa_vida * 52) - 1)) at 1 by lia.
    reflexivity. }
  rewrite Hr in H. cbn [map] in H. rewrite for_append_py_cons in H.
  destruct (csv_row data_nascimento (cell_at semanas_vividas (0 / 52) (0 mod 52)))
    as [e|r] eqn:E; [discriminate|]. cbn [bind] in H.
  apply for_append_py_inv in H as [ys [-> _]].
  exists r, ys. split; [reflexivity|].
  apply csv_row_inv in E as [H1 [H2 [H3 [_ [td [t [Etd [Eadd Hdate]]]]]]]].
  change (0 / 52) with 0 in *. change (0 mod 52) with 0 in *.
  cbn [ano semana semana_absoluta cell_at] in *.
  change (0 * 52 + 0) with 0 in *.
  destruct (datetime_add_zero data_nascimento Hv) as [td0 [Etd0 Eadd0]].
  rewrite Etd0 in Etd. injection Etd as <-.
  rewrite Eadd0 in Eadd. injection Eadd as <-.
  do 4 (split; [assumption|]).
  rewrite Hdate. apply strftime_Ymd_text.
Qed.

Lemma X18_first_row_is_birth_date_witness :
  let data_nascimento := mk_datetime 1990 1 1 0 0 0 0 in
  let rows := match dados_csv (criar_grid_vida 10 1) data_nascimento with
              | inr rows => rows
              | inl _ => []
              end in
  let dg := fun n : Z => ascii_of_nat (48 + Z.to_nat (n mod 10)) in
  exists r rest,
    rows = r :: rest /\
    Ano r = 1 /\ Semana_do_Ano r = 1 /\ Semana_Absoluta r = 1 /\
    Data_Aproximada r = strftime_Ymd data_nascimento /\
    Data_Aproximada r
    = String (dg (year data_nascimento / 1000)) (String (dg (year data_nascimento / 100))
        (String (dg (year data_nascimento / 10)) (String (dg (year data_nascimento))
          (String "-"%char
            (String (dg (month data_nascimento / 10)) (String (dg (month data_nascimento))
              (String "-"%char
                (String (dg (day data_nascimento / 10)) (String (dg (day data_nascimento))
                   EmptyString))))))))).
Proof.
  apply (X18_first_row_is_birth_date 10 1 (mk_datetime 1990 1 1 0 0 0 0)).
  - reflexivity.
  - lia.
  - vm_compute. reflexivity.
Defined.

Lemma timedelta_new_cases (d s us ms mi h w : Z) :
  let total := ((d + w * 7) * 86400 + s + mi * 60 + h * 3600) * 1000000
               + us + ms * 1000 in
  timedelta_new d s us ms mi h w
  = if 999999999 <? Z.abs (total / us_per_day)
    then inl OverflowError
    else inr (mk_timedelta (total / us_per_day)
                           (total mod us_per_day / 1000000)
                           (total mod 1000000)).
Proof.
  intro total.
  destruct (Z.ltb_spec 999999999 (Z.abs (total / us_per_day))) as [Hbig|Hok].
  - unfold timedelta_new. cbv zeta.
    change (24 * 3600) with 86400. change us_per_day with 86400000000 in *.
    set (D := d + w * 7) in *. set (S := s + mi * 60 + h * 3600) in *.
    set (U := us + ms * 1000) in *.
    assert (Ht : total = (D * 86400 + S) * 1000000 + U) by (unfold total; lia).
    clearbody total D S U. subst total.
    assert (E1 : D + S / 86400 + U / 1000000 / 86400
        + (0 + S mod 86400 + U / 1000000 mod 86400 + U mod 1000000 / 1000000)
          / 86400
        = ((D * 86400 + S) * 1000000 + U) / 86400000000)
      by (Z.div_mod_to_equations; lia).
    rewrite E1.
    destruct (Z.ltb_spec 999999999
                (Z.abs (((D * 86400 + S) * 1000000 + U) / 86400000000)));
      [reflexivity | lia].
  - apply timedelta_new_total. exact Hok.
Qed.

Lemma csv_row_overflow (data_nascimento : datetime) (c : Cell) :
  valid_datetime data_nascimento = true ->
  _MAXORDINAL < toordinal data_nascimento + semana_absoluta c * 7 ->
  csv_row data_nascimento c = inl OverflowError.
Proof.
  intros Hv Hbig.
  pose proof (toordinal_range data_nascimento Hv) as Rt.
  pose proof Hv as Hf.
  apply valid_datetime_true in Hf as [_ [Hh [Hmi [Hs Hus]]]].
  unfold _MAXORDINAL in *.
  set (k := semana_absoluta c) in *.
  unfold csv_row. fold k. unfold timedelta_weeks.
  rewrite timedelta_new_cases. cbv zeta.
  replace ((((0 + k * 7) * 86400 + 0 + 0 * 60 + 0 * 3600) * 1000000
            + 0 + 0 * 1000) / us_per_day) with (k * 7)
    by (unfold us_per_day; Z.div_mod_to_equations; lia).
  destruct (Z.ltb_spec 999999999 (Z.abs (k * 7))) as [H1|H1]; [reflexivity|].
  cbn [bind].
  replace ((((0 + k * 7) * 86400 + 0 + 0 * 60 + 0 * 3600) * 1000000
            + 0 + 0 * 1000) mod us_per_day / 1000000) with 0
    by (unfold us_per_day; Z.div_mod_to_equations; lia).
  replace ((((0 + k * 7) * 86400 + 0 + 0 * 60 + 0 * 3600) * 1000000
            + 0 + 0 * 1000) mod 1000000) with 0
    by (Z.div_mod_to_equations; lia).
  unfold datetime_add. change _MAXORDINAL with 3652059.
  rewrite timedelta_new_carried by lia. cbn [bind].
  unfold timedelta_add. cbn [days seconds microseconds].
  rewrite timedelta_new_cases. cbv zeta.
  set (secs := second data_nascimento + minute data_nascimento * 60
               + hour data_nascimento * 3600) in *.
  set (o := toordinal data_nascimento) in *.
  assert (Hsecs : 0 <= secs < 86400) by (unfold secs; lia).
  clearbody secs o.
  replace ((((o + 0 * 7 + k * 7 + 0 * 7) * 86400 + (secs + 0) + 0 * 60 + 0 * 3600)
            * 1000000 + (microsecond data_nascimento + 0) + 0 * 1000)
           / us_per_day) with (o + k * 7)
    by (unfold us_per_day; Z.div_mod_to_equations; lia).
  destruct (Z.ltb_spec 999999999 (Z.abs (o + k * 7))) as [H2|H2];
    [reflexivity|].
  cbn [bind days].
  destruct (Z.ltb_spec 0 (o + k * 7)); [|reflexivity].
  destruct (Z.leb_spec (o + k * 7) 3652059); [lia | reflexivity].
Qed.

(** X19: when the date of the last week lies after 9999-12-31 the export
    raises OverflowError and returns no rows at all, although the earlier
    rows have dates that exist. *)
Theorem X19_export_overflow (semanas_vividas expectativa_vida : Z)
        (data_nascimento : datetime) :
  valid_datetime data_nascimento = true ->
  1 <= expectativa_vida ->
  _MAXORDINAL < toordinal data_nascimento + (expectativa_vida * 52 - 1) * 7 ->
  dados_csv (criar_grid_vida semanas_vividas expectativa_vida) data_nascimento
  = inl OverflowError.
Proof.
  intros Hv He Hbig.
  pose proof (toordinal_range data_nascimento Hv) as Rt.
  rewrite dados_csv_flat. apply for_append_py_first_error.
  - intros c Hc. apply In_cells in Hc as [a [s [Ha [Hs ->]]]].
    destruct (Z_le_gt_dec
                (toordinal data_nascimento
                 + semana_absoluta (cell_at semanas_vividas a s) * 7)
                _MAXORDINAL) as [Hok|Hover].
    + left.
      destruct (csv_row_value data_nascimento (cell_at semanas_vividas a s) Hv)
        as [td [t [_ [_ [E _]]]]].
      * cbn [semana_absoluta cell_at] in *. lia.
      * eexists. exact E.
    + right. apply csv_row_overflow; [assumption | lia].
  - exists (cell_at semanas_vividas (expectativa_vida - 1) 51). split.
    + apply In_cells. exists (expectativa_vida - 1), 51.
      repeat split; lia.
    + apply csv_row_overflow; [assumption|].
      cbn [semana_absoluta cell_at]. lia.
Qed.

Lemma X19_export_overflow_witness :
  dados_csv (criar_grid_vida 0 50) (mk_datetime 9990 6 15 0 0 0 0)
  = inl OverflowError.
Proof.
  apply (X19_export_overflow 0 50 (mk_datetime 9990 6 15 0 0 0 0)).
  - reflexivity.
  - lia.
  - apply Z.ltb_lt. vm_compute. reflexivity.
Defined.
